(** * autokraft-backend: the order intake handlers

    A shallow embedding of the order submission and listing handlers of
    - [server.js], whose text holds two programs: lines 1-179 (module
      [Server1] below) and lines 179-454 (module [Server2]);
    - [routes/orders.js] together with [models/Order.js] (module [Routes]);
    - [unnamed/part_000], a second version of that router (module
      [Routes2]) with the HTTPS redirection in front of it (module [Https]);
    and of the start-up of the two programs of [server.js] (modules
    [Startup1] and [Startup2]).

    A handler is a function from what the request finds outside the
    program ([Env]), the request and the state of storage and collection
    ([World]) to its outcome and the new state. What the programs call but
    do not define (the JavaScript host, multer, mongoose) is collected in
    the class [Host] or modelled in the modules [Multer] and [Mongoose],
    with the behaviour the handlers rely on. *)

From Stdlib Require Import Ascii QArith Sorting.Permutation Sorting.Sorted.
From stdpp Require Import base strings pretty list gmap.

Set Warnings "-register-all".
Open Scope string_scope.
Open Scope Z_scope.

(** ** JavaScript values *)

(** A JS number: the handlers only compare numbers with a bound. *)
Inductive number :=
| NaN
| Fin (q : Q)
| Infinity (negative : bool).

(** [n >= bound], false on [NaN] as in JS. *)
Definition number_ge (n : number) (bound : Q) : bool :=
  match n with
  | NaN => false
  | Fin q => Qle_bool bound q
  | Infinity negative => negb negative
  end.

Definition isNaN (n : number) : bool :=
  match n with NaN => true | _ => false end.

(** The result of [JSON.parse]. *)
Inductive json :=
| JNull
| JBool (b : bool)
| JNum (n : number)
| JStr (s : string)
| JArr (items : list json)
| JObj (members : list (string * json)).

(** A value read from [req.body]: [None] is [undefined]. *)
Definition truthy (v : option string) : bool :=
  match v with
  | None => false
  | Some s => negb (String.eqb s "")
  end.

(** [String(v)], as [JSON.parse] applies it to its argument. *)
Definition toString (v : option string) : string :=
  match v with
  | None => "undefined"
  | Some s => s
  end.

(** [Array.prototype.join]. *)
Fixpoint join (sep : string) (l : list string) : string :=
  match l with
  | [] => ""
  | [x] => x
  | x :: rest => x +:+ sep +:+ join sep rest
  end.

(** [String.prototype.startsWith]. *)
Definition startsWith (s p : string) : bool := String.prefix p s.

(** [Array.prototype.includes] on an array of strings. *)
Definition includes (l : list string) (x : string) : bool :=
  existsb (String.eqb x) l.

(** ** Regular expressions

    The two patterns of the order schema are sequences of quantified
    character classes; [test] is [RegExp.prototype.test]. A string is
    the text in UTF-8. Of the four line terminators that [.] leaves out,
    line feed and carriage return are single characters; U+2028 and
    U+2029 are the three bytes 226 128 168 and 226 128 169, which
    [line_separators] turns into a line feed before the pattern runs:
    no class of the two patterns tells one line terminator from
    another. *)
Module RegExp.

Inductive cls :=
| Lit (c : ascii)      (* an escaped or plain character *)
| AnyChar              (* .  : anything but a line terminator *)
| Digit.               (* \d : 0-9 *)

Inductive quant :=
| Once
| OneOrMore            (* +   *)
| Exactly (n : nat).   (* {n} *)

Record t := {
  from_start : bool;            (* ^ *)
  atoms : list (cls * quant);
  to_end : bool                 (* $ *)
}.

Definition is_digit (c : ascii) : bool :=
  let n := nat_of_ascii c in (48 <=? n)%nat && (n <=? 57)%nat.

(** The line terminators of one byte; the other two reach the pattern as
    line feeds, see [line_separators]. *)
Definition is_line_terminator (c : ascii) : bool :=
  let n := nat_of_ascii c in (n =? 10)%nat || (n =? 13)%nat.

Definition accepts (k : cls) (c : ascii) : bool :=
  match k with
  | Lit d => Ascii.eqb c d
  | AnyChar => negb (is_line_terminator c)
  | Digit => is_digit c
  end.

(** One or more characters of class [k], then [cont] on the rest. *)
Fixpoint one_or_more (k : cls) (s : string) (cont : string -> bool) : bool :=
  match s with
  | EmptyString => false
  | String c rest => accepts k c && (cont rest || one_or_more k rest cont)
  end.

(** Exactly [n] characters of class [k], then [cont] on the rest. *)
Fixpoint exactly (k : cls) (n : nat) (s : string) (cont : string -> bool) : bool :=
  match n with
  | O => cont s
  | S n' =>
      match s with
      | EmptyString => false
      | String c rest => accepts k c && exactly k n' rest cont
      end
  end.

Definition atom (a : cls * quant) (s : string) (cont : string -> bool) : bool :=
  match a with
  | (k, Once) => exactly k 1 s cont
  | (k, OneOrMore) => one_or_more k s cont
  | (k, Exactly n) => exactly k n s cont
  end.

(** The atoms match a prefix of [s] and [final] holds of what is left. *)
Fixpoint seq (l : list (cls * quant)) (s : string) (final : string -> bool) : bool :=
  match l with
  | [] => final s
  | a :: l' => atom a s (fun rest => seq l' rest final)
  end.

Definition at_end (r : t) (s : string) : bool :=
  if to_end r then String.eqb s "" else true.

Definition match_here (r : t) (s : string) : bool := seq (atoms r) s (at_end r).

(** A match starting at some position of [s]. *)
Fixpoint search (r : t) (s : string) : bool :=
  match_here r s ||
  match s with
  | EmptyString => false
  | String _ rest => search r rest
  end.

Definition is_separator (c1 c2 c3 : ascii) : bool :=
  Ascii.eqb c1 "226" && Ascii.eqb c2 "128"
  && (Ascii.eqb c3 "168" || Ascii.eqb c3 "169").

(** Every U+2028 and U+2029 of [s] as one line terminator. *)
Fixpoint line_separators (s : string) : string :=
  match s with
  | EmptyString => EmptyString
  | String c1 tail =>
      match tail with
      | String c2 (String c3 rest) =>
          if is_separator c1 c2 c3
          then String "010" (line_separators rest)
          else String c1 (line_separators tail)
      | _ => String c1 (line_separators tail)
      end
  end.

Definition test (r : t) (s : string) : bool :=
  let text := line_separators s in
  if from_start r then match_here r text else search r text.

End RegExp.

(** ** The host

    [JSON_parse] returns the message of the SyntaxError it throws, or the
    parsed value. [Number] is the conversion [Number(s)] of a string.
    [subdocument_issues] is mongoose's casting and validation of one
    element of the [products] array against the element schema named by its
    first argument; [multer_message] is multer's table of messages per error
    code. [mimeType] is what busboy makes of the Content-Type header of a
    part, and what multer puts in [file.mimetype]: the type and subtype in
    lower case, without the parameters of the header. *)
Record Issue := { at_path : string; reason : string }.

Inductive ElementSchema :=
| ProductsServer1   (* server.js lines 93-99 *)
| ProductsServer2   (* server.js lines 291-297: price min 0, quantity min 1 *)
| ProductsModel.    (* models/Order.js lines 12-20: productId is Mixed *)

Class Host := {
  JSON_parse : string -> string + json;
  Number : string -> number;
  path_extname : string -> string;
  subdocument_issues : ElementSchema -> json -> list Issue;
  multer_message : string -> string;
  mimeType : string -> string
}.

(** ** Errors, requests, documents, responses *)

Inductive exn :=
| Error (message : string)                      (* Error and its host subclasses *)
| MulterError (code : string) (field : string)  (* new multer.MulterError(code, field) *)
| ValidationError (issues : list Issue).        (* thrown by save() *)

Definition issue_text (i : Issue) : string := at_path i +:+ ": " +:+ reason i.

Definition message `{Host} (e : exn) : string :=
  match e with
  | Error m => m
  | MulterError code _ => multer_message code
  | ValidationError issues =>
      "Order validation failed: " +:+ join ", " (map issue_text issues)
  end.

(** [req.file], as multer's disk storage fills it. *)
Record File := {
  mimetype : string;
  originalname : string;
  filename : string;
  path : string
}.

Record Request := {
  body : gmap string string;
  file : option File
}.

Record CustomerInfo := {
  name : option string;
  email : option string;
  phone : option string;
  address : option string;
  pincode : option string;
  city : option string
}.

(** An Order document. [products] holds the elements of the document array;
    [orderDate] and [createdAt] are absent where the schema has no such
    path. *)
Record Order := {
  customerInfo : CustomerInfo;
  products : list json;
  totalAmount : option number;
  paymentScreenshot : option string;
  orderDate : option Z;
  status : string;
  createdAt : option Z
}.

(** The JSON payload of a response. *)
Inductive Payload :=
| Failure (message : string) (error : option string)  (* { success: false, message, error } *)
| Created (order : Order)                             (* { success: true, order } *)
| Listing (orders : list Order)                       (* { success: true, orders } *)
| ErrorOnly (error : string) (details : option string)  (* { error, details } *)
| Bare (order : Order)                                (* res.json(order) *)
| BareList (orders : list Order).                     (* res.json(orders) *)

(** How a handler ends: it sends a response, or its promise rejects with
    an error before it has sent any, or (for a middleware) the error is
    handed on with [next(err)]. *)
Inductive Outcome :=
| Sent (code : Z) (payload : Payload)
| Rejected (e : exn)
| Next (e : exn).

(** The storage directory, the collection and what [console.error] printed. *)
Record World := {
  files : gset string;
  orders : list Order;
  console : list string
}.

(** What one request finds outside the program. *)
Record Env := {
  Date_now : Z;
  Math_random : Z;               (* Math.round(Math.random() * 1E9) *)
  NODE_ENV : option string;      (* process.env.NODE_ENV *)
  save_fault : option string;    (* the storage layer's failure of an insert *)
  find_fault : option string;    (* the storage layer's failure of a query *)
  unlink_fault : option string   (* the file system's failure of a delete *)
}.

Definition log (line : string) (w : World) : World :=
  {| files := files w; orders := orders w; console := console w ++ [line] |}.

Definition remove_file (p : string) (w : World) : World :=
  {| files := files w ∖ {[p]}; orders := orders w; console := console w |}.

Definition insert_order (o : Order) (w : World) : World :=
  {| files := files w; orders := orders w ++ [o]; console := console w |}.

(** ** mongoose, as far as the handlers rely on it

    [save] validates the document against its schema, collecting the
    failure of every path in one ValidationError, and inserts it when there
    is none. *)
Module Mongoose.

Definition issue (p msg : string) : Issue := {| at_path := p; reason := msg |}.

(** [required] on a String path: [undefined] and the empty string fail. *)
Definition required (p msg : string) (v : option string) : list Issue :=
  if truthy v then [] else [issue p msg].

Definition required_default (p : string) : string :=
  "Path `" +:+ p +:+ "` is required.".

(** [match: [re, msg]]: not run on an absent or empty value. *)
Definition match_ (p : string) (re : RegExp.t) (msg : string) (v : option string)
  : list Issue :=
  match v with
  | Some s =>
      if String.eqb s "" then []
      else if RegExp.test re s then [] else [issue p msg]
  | None => []
  end.

(** [validate: { validator, message }]: not run on [undefined]. *)
Definition validate (p : string) (validator : string -> bool)
    (msg : string -> string) (v : option string) : list Issue :=
  match v with
  | Some s => if validator s then [] else [issue p (msg s)]
  | None => []
  end.

(** A required Number path with an optional [min: [bound, msg]]: a value
    that casts to NaN is a cast failure. *)
Definition number_path (p : string) (min : option (Q * string)) (v : option number)
  : list Issue :=
  match v with
  | None => [issue p (required_default p)]
  | Some n =>
      if isNaN n then [issue p "Cast to Number failed"]
      else match min with
           | Some (bound, msg) => if number_ge n bound then [] else [issue p msg]
           | None => []
           end
  end.

(** [enum] on a String path. *)
Definition enum (p : string) (allowed : list string) (v : string) : list Issue :=
  if includes allowed v then []
  else [issue p ("`" +:+ v +:+ "` is not a valid enum value for path `" +:+ p +:+ "`.")].

(** The cast of a String-to-Number path as the model constructor does it:
    [undefined] and the empty string leave the path empty. *)
Definition cast_number `{Host} (v : option string) : option number :=
  match v with
  | None => None
  | Some s => if String.eqb s "" then None else Some (Number s)
  end.

(** The elements a document array takes from the value it is given: a
    value that is not an array is wrapped in one, and [null] leaves the
    path without elements. *)
Definition document_array (v : json) : list json :=
  match v with
  | JArr items => items
  | JNull => []
  | other => [other]
  end.

Definition elements_issues `{Host} (schema : ElementSchema) (items : list json)
  : list Issue :=
  flat_map (subdocument_issues schema) items.

(** [timestamps: true] sets [createdAt] when the document is saved. *)
Definition stamp (timestamps : bool) (env : Env) (o : Order) : Order :=
  if timestamps then
    {| customerInfo := customerInfo o; products := products o;
       totalAmount := totalAmount o; paymentScreenshot := paymentScreenshot o;
       orderDate := orderDate o; status := status o;
       createdAt := Some (Date_now env) |}
  else o.

(** [await doc.save()]: the error thrown, or the saved document and the
    world holding it. *)
Definition save (issues : Order -> list Issue) (timestamps : bool)
    (env : Env) (o : Order) (w : World) : exn + (Order * World) :=
  match issues o with
  | [] =>
      match save_fault env with
      | Some m => inl (Error m)
      | None => let saved := stamp timestamps env o in
                inr (saved, insert_order saved w)
      end
  | failures => inl (ValidationError failures)
  end.

(** The order of a descending sort on a path: a document without the path
    sorts as [null], below every value. *)
Definition key_le (a b : option Z) : bool :=
  match a, b with
  | None, _ => true
  | Some _, None => false
  | Some x, Some y => x <=? y
  end.

Fixpoint insert_desc (key : Order -> option Z) (o : Order) (sorted : list Order)
  : list Order :=
  match sorted with
  | [] => [o]
  | y :: rest =>
      if key_le (key y) (key o) then o :: y :: rest
      else y :: insert_desc key o rest
  end.

(** [Model.find().sort({ key: -1 })] on the collection. *)
Definition find_sort_desc (key : Order -> option Z) (collection : list Order)
  : list Order :=
  foldr (insert_desc key) [] collection.

(** [await Model.find().sort(...)]: the error thrown, or the documents. *)
Definition find (key : Order -> option Z) (env : Env) (w : World)
  : exn + list Order :=
  match find_fault env with
  | Some m => inl (Error m)
  | None => inr (find_sort_desc key (orders w))
  end.

End Mongoose.

(** ** multer, as far as the handlers rely on it

    [single] is the middleware [upload.single(field)]: it hands the file,
    with the MIME type as busboy reads it, to [fileFilter] before anything
    is written, writes the part under [destination] with the generated
    name, and when the bytes written reach [limits.fileSize] removes what
    it wrote and fails with LIMIT_FILE_SIZE: busboy ends a file at the
    limit, so that a file of just that size is refused too. Without a
    file part [req.file] stays undefined. *)
Module Multer.

(** A file part: as the client sends it, [part_mimetype] being its
    Content-Type header, or as [fileFilter] and [filename] receive it,
    [part_mimetype] being [file.mimetype]. *)
Record Part := {
  part_mimetype : string;
  part_originalname : string;
  part_size : Z
}.

Record Options := {
  destination : string;
  fileFilter : Part -> option exn;   (* [None]: cb(null, true) *)
  fileSize : option Z                (* limits.fileSize; absent: no limit *)
}.

(** The [filename] callback, the same in every program:
    [`${Date.now()}-${Math.round(Math.random() * 1E9)}${path.extname(file.originalname)}`]. *)
Definition uniqueName `{Host} (env : Env) (part : Part) : string :=
  pretty (Date_now env) +:+ "-" +:+ pretty (Math_random env)
    +:+ path_extname (part_originalname part).

Definition store_file (p : string) (w : World) : World :=
  {| files := {[p]} ∪ files w; orders := orders w; console := console w |}.

Definition too_large (o : Options) (part : Part) : bool :=
  match fileSize o with
  | Some limit => limit <=? part_size part
  | None => false
  end.

(** The file of [part] as the callbacks of the storage see it. *)
Definition received `{Host} (part : Part) : Part :=
  {| part_mimetype := mimeType (part_mimetype part);
     part_originalname := part_originalname part;
     part_size := part_size part |}.

(** [req.file] of the file [info], written under [destination]. *)
Definition stored `{Host} (o : Options) (env : Env) (info : Part) : File :=
  {| mimetype := part_mimetype info;
     originalname := part_originalname info;
     filename := uniqueName env info;
     path := destination o +:+ uniqueName env info |}.

Definition single `{Host} (o : Options) (field : string) (env : Env)
    (part : option Part) (w : World) : (exn + option File) * World :=
  match part with
  | None => (inr None, w)
  | Some p =>
      let info := received p in
      match fileFilter o info with
      | Some e => (inl e, w)
      | None =>
          let f := stored o env info in
          if too_large o info
          then (inl (MulterError "LIMIT_FILE_SIZE" field),
                remove_file (path f) (store_file (path f) w))
          else (inr (Some f), store_file (path f) w)
      end
  end.

End Multer.

(** ** Exceptions

    A block that may throw is a computation in [exn + _]; [try ... catch]
    is the match on its result. *)
#[global] Instance exn_ret : MRet (sum exn) := fun _ a => inr a.
#[global] Instance exn_bind : MBind (sum exn) :=
  fun _ _ f m => match m with inl e => inl e | inr a => f a end.

(** [JSON.parse(v)], throwing a SyntaxError. *)
Definition parse `{Host} (v : option string) : exn + json :=
  match JSON_parse (toString v) with
  | inl m => inl (Error m)
  | inr parsed => inr parsed
  end.

(** The member [k] of a parsed object; of members written twice in the
    text the last one counts. *)
Definition member (k : string) (members : list (string * json)) : option json :=
  foldl (fun found m => if String.eqb (fst m) k then Some (snd m) else found)
        None members.

Definition number_of_nat (n : nat) : json := JNum (Fin (inject_Z (Z.of_nat n))).

(** [v.length] of a parsed value: reading it off [null] throws a TypeError;
    a list has its number of elements, a string its number of characters,
    an object the member of that name if it has one; it is [undefined] on
    numbers, on booleans and on objects without the member. *)
Definition js_length (v : json) : exn + option json :=
  match v with
  | JNull => inl (Error "Cannot read properties of null (reading 'length')")
  | JArr items => inr (Some (number_of_nat (length items)))
  | JStr s => inr (Some (number_of_nat (String.length s)))
  | JObj members => inr (member "length" members)
  | JNum _ | JBool _ => inr None
  end.

(** [x === 0]. *)
Definition is_zero (x : option json) : bool :=
  match x with
  | Some (JNum (Fin q)) => Qeq_bool q 0
  | _ => false
  end.

Definition customer (b : gmap string string) : CustomerInfo :=
  {| name := b !! "name"; email := b !! "email"; phone := b !! "phone";
     address := b !! "address"; pincode := b !! "pincode"; city := b !! "city" |}.

(** ** server.js, lines 1-179 *)
Module Server1.

Definition allowedTypes : list string := ["image/jpeg"; "image/png"; "image/jpg"].

Definition fileFilter (file : Multer.Part) : option exn :=
  if includes allowedTypes (Multer.part_mimetype file) then None
  else Some (Error "Invalid file type. Only JPEG, JPG, and PNG are allowed!").

Definition upload : Multer.Options :=
  {| Multer.destination := "uploads/";
     Multer.fileFilter := fileFilter;
     Multer.fileSize := Some (5 * 1024 * 1024) |}.

(** [orderSchema], lines 84-103, with [timestamps: true]. *)
Definition orderSchema `{Host} (o : Order) : list Issue :=
  let c := customerInfo o in
  let req p := Mongoose.required p (Mongoose.required_default p) in
  req "customerInfo.name" (name c) ++
  req "customerInfo.email" (email c) ++
  req "customerInfo.phone" (phone c) ++
  req "customerInfo.address" (address c) ++
  req "customerInfo.pincode" (pincode c) ++
  req "customerInfo.city" (city c) ++
  Mongoose.elements_issues ProductsServer1 (products o) ++
  Mongoose.number_path "totalAmount" None (totalAmount o).

(** [new Order({ ... })], lines 120-125: [status] takes the schema's
    default. *)
Definition newOrder `{Host} (b : gmap string string) (f : File) (parsed : json)
  : Order :=
  {| customerInfo := customer b;
     products := Mongoose.document_array parsed;
     totalAmount := Mongoose.cast_number (b !! "totalAmount");
     paymentScreenshot := Some ("/uploads/" +:+ filename f);
     orderDate := None;
     status := "pending";
     createdAt := None |}.

(** [!name || !email || ... || !products], line 116. *)
Definition incomplete (b : gmap string string) : bool :=
  negb (truthy (b !! "name")) || negb (truthy (b !! "email"))
  || negb (truthy (b !! "phone")) || negb (truthy (b !! "address"))
  || negb (truthy (b !! "pincode")) || negb (truthy (b !! "city"))
  || negb (truthy (b !! "totalAmount")) || negb (truthy (b !! "products")).

(** The body of [try], lines 110-129. *)
Definition try_post `{Host} (env : Env) (req : Request) (w : World)
  : exn + (Outcome * World) :=
  match file req with
  | None => inr (Sent 400 (Failure "Payment screenshot is required" None), w)
  | Some f =>
      let b := body req in
      if incomplete b
      then inr (Sent 400 (Failure "All fields are required" None), w)
      else
        parsed ← parse (b !! "products");
        '(saved, w') ← Mongoose.save orderSchema true env (newOrder b f parsed) w;
        mret (Sent 201 (Created saved), w')
  end.

(** The [catch] block, lines 130-134: [fs.unlinkSync] throws when the
    delete fails, out of the handler. *)
Definition catch `{Host} (env : Env) (req : Request) (error : exn) (w : World)
  : Outcome * World :=
  let w1 := log ("Order creation error: " +:+ message error) w in
  match file req with
  | Some f =>
      match unlink_fault env with
      | Some m => (Rejected (Error m), w1)
      | None => (Sent 500 (Failure "Failed to create order" None),
                 remove_file (path f) w1)
      end
  | None => (Sent 500 (Failure "Failed to create order" None), w1)
  end.

(** The handler of [app.post('/api/orders', ...)], lines 108-135. *)
Definition post_orders `{Host} (env : Env) (req : Request) (w : World)
  : Outcome * World :=
  match try_post env req w with
  | inr done => done
  | inl error => catch env req error w
  end.

(** The handler of [app.get('/api/orders', ...)], lines 137-144. *)
Definition get_orders (env : Env) (w : World) : Outcome * World :=
  match Mongoose.find createdAt env w with
  | inr found => (Sent 200 (Listing found), w)
  | inl _ => (Sent 500 (Failure "Failed to fetch orders" None), w)
  end.

(** The error middleware, lines 165-168. *)
Definition error_handler `{Host} (err : exn) (w : World) : Outcome * World :=
  (Sent 500 (Failure "Something went wrong!" None), log (message err) w).

(** A POST to /api/orders: the upload middleware, then the handler. *)
Definition submit `{Host} (env : Env) (fields : gmap string string)
    (part : option Multer.Part) (w : World) : Outcome * World :=
  match Multer.single upload "paymentScreenshot" env part w with
  | (inl err, w') => error_handler err w'
  | (inr f, w') => post_orders env {| body := fields; file := f |} w'
  end.

End Server1.

(** ** server.js, lines 179-454 *)
Module Server2.

Definition allowedTypes : list string := ["image/jpeg"; "image/png"; "image/jpg"].

Definition fileFilter (file : Multer.Part) : option exn :=
  if includes allowedTypes (Multer.part_mimetype file) then None
  else Some (MulterError "LIMIT_UNEXPECTED_FILE"
               "Invalid file type. Only JPEG, JPG, and PNG are allowed!").

Definition upload : Multer.Options :=
  {| Multer.destination := "uploads/";
     Multer.fileFilter := fileFilter;
     Multer.fileSize := Some (5 * 1024 * 1024) |}.

(** [/.+\@.+\..+/] *)
Definition email_re : RegExp.t :=
  {| RegExp.from_start := false;
     RegExp.atoms := [(RegExp.AnyChar, RegExp.OneOrMore); (RegExp.Lit "@", RegExp.Once);
                      (RegExp.AnyChar, RegExp.OneOrMore); (RegExp.Lit ".", RegExp.Once);
                      (RegExp.AnyChar, RegExp.OneOrMore)];
     RegExp.to_end := false |}.

(** [/^\d{10}$/] *)
Definition phone_re : RegExp.t :=
  {| RegExp.from_start := true;
     RegExp.atoms := [(RegExp.Digit, RegExp.Exactly 10)];
     RegExp.to_end := true |}.

Definition statuses : list string := ["pending"; "processing"; "shipped"; "delivered"].

(** [orderSchema], lines 269-302, with [timestamps: true]. *)
Definition orderSchema `{Host} (o : Order) : list Issue :=
  let c := customerInfo o in
  Mongoose.required "customerInfo.name" "Name is required" (name c) ++
  Mongoose.required "customerInfo.email" "Email is required" (email c) ++
  Mongoose.match_ "customerInfo.email" email_re "Please enter a valid email" (email c) ++
  Mongoose.required "customerInfo.phone" "Phone is required" (phone c) ++
  Mongoose.validate "customerInfo.phone" (RegExp.test phone_re)
    (fun value => value +:+ " is not a valid phone number!") (phone c) ++
  Mongoose.required "customerInfo.address" "Address is required" (address c) ++
  Mongoose.required "customerInfo.pincode" "Pincode is required" (pincode c) ++
  Mongoose.required "customerInfo.city" "City is required" (city c) ++
  Mongoose.elements_issues ProductsServer2 (products o) ++
  Mongoose.number_path "totalAmount" (Some (0%Q, "Total must be positive")) (totalAmount o) ++
  Mongoose.enum "status" statuses (status o).

Definition requiredFields : list string :=
  ["name"; "email"; "phone"; "address"; "pincode"; "city"; "totalAmount"; "products"].

(** [requiredFields.filter(field => !body[field])] *)
Definition missingFields (b : gmap string string) : list string :=
  List.filter (fun field => negb (truthy (b !! field))) requiredFields.

(** [new Order({ ... })], lines 338-350: [orderDate] and [status] take the
    schema's defaults. *)
Definition newOrder `{Host} (env : Env) (b : gmap string string) (f : File)
    (parsedProducts : json) : Order :=
  {| customerInfo := customer b;
     products := Mongoose.document_array parsedProducts;
     totalAmount := Some (Number (toString (b !! "totalAmount")));
     paymentScreenshot := Some ("/uploads/" +:+ filename f);
     orderDate := Some (Date_now env);
     status := "pending";
     createdAt := None |}.

(** The body of [try], lines 309-357. *)
Definition try_post `{Host} (env : Env) (req : Request) (w : World)
  : exn + (Outcome * World) :=
  let b := body req in
  match file req with
  | None => inr (Sent 400 (Failure "Payment screenshot is required" None), w)
  | Some f =>
      if (0 <? length (missingFields b))%nat
      then inr (Sent 400 (Failure ("Missing required fields: "
                                     +:+ join ", " (missingFields b)) None), w)
      else
        match parse (b !! "products") with
        | inl _ => inr (Sent 400 (Failure "Invalid products format" None), w)
        | inr parsedProducts =>
            '(saved, w') ← Mongoose.save orderSchema true env
                              (newOrder env b f parsedProducts) w;
            mret (Sent 201 (Created saved), w')
        end
  end.

(** [process.env.NODE_ENV === 'development' ? error.message : undefined] *)
Definition diagnostic `{Host} (env : Env) (error : exn) : option string :=
  match NODE_ENV env with
  | Some mode => if String.eqb mode "development" then Some (message error) else None
  | None => None
  end.

(** The [catch] block, lines 359-373: the delete is issued before the
    answer is sent, and [fs.unlink] reports a failure to its callback, which
    prints it. The world returned is the one after the callback ran. *)
Definition catch `{Host} (env : Env) (req : Request) (error : exn) (w : World)
  : Outcome * World :=
  let w1 := log ("Order creation error: " +:+ message error) w in
  let w2 :=
    match file req with
    | Some f =>
        match unlink_fault env with
        | Some m => log ("Error deleting uploaded file: " +:+ m) w1
        | None => remove_file (path f) w1
        end
    | None => w1
    end in
  (Sent 500 (Failure "Failed to create order" (diagnostic env error)), w2).

(** The handler of [app.post('/api/orders', ...)], lines 307-374. *)
Definition post_orders `{Host} (env : Env) (req : Request) (w : World)
  : Outcome * World :=
  match try_post env req w with
  | inr done => done
  | inl error => catch env req error w
  end.

(** The handler of [app.get('/api/orders', ...)], lines 377-384. *)
Definition get_orders (env : Env) (w : World) : Outcome * World :=
  match Mongoose.find orderDate env w with
  | inr found => (Sent 200 (Listing found), w)
  | inl _ => (Sent 500 (Failure "Failed to fetch orders" None), w)
  end.

(** The error middleware, lines 405-420. *)
Definition error_handler `{Host} (env : Env) (err : exn) (w : World)
  : Outcome * World :=
  let w1 := log ("Server error: " +:+ message err) w in
  match err with
  | MulterError _ _ =>
      (Sent 400 (Failure (if String.eqb (message err) "" then "File upload error"
                          else message err) None), w1)
  | _ => (Sent 500 (Failure "Internal Server Error" (diagnostic env err)), w1)
  end.

(** A POST to /api/orders: the upload middleware, then the handler. *)
Definition submit `{Host} (env : Env) (fields : gmap string string)
    (part : option Multer.Part) (w : World) : Outcome * World :=
  match Multer.single upload "paymentScreenshot" env part w with
  | (inl err, w') => error_handler env err w'
  | (inr f, w') => post_orders env {| body := fields; file := f |} w'
  end.

End Server2.

(** ** routes/orders.js with models/Order.js *)
Module Routes.

Definition fileFilter (file : Multer.Part) : option exn :=
  if startsWith (Multer.part_mimetype file) "image/" then None
  else Some (Error "Only image files are allowed!").

Definition upload : Multer.Options :=
  {| Multer.destination := "uploads/payments/";
     Multer.fileFilter := fileFilter;
     Multer.fileSize := None |}.

(** [OrderSchema] of models/Order.js. *)
Definition OrderSchema `{Host} (o : Order) : list Issue :=
  let c := customerInfo o in
  let req p := Mongoose.required p (Mongoose.required_default p) in
  req "customerInfo.name" (name c) ++
  req "customerInfo.email" (email c) ++
  req "customerInfo.phone" (phone c) ++
  req "customerInfo.address" (address c) ++
  req "customerInfo.pincode" (pincode c) ++
  req "customerInfo.city" (city c) ++
  Mongoose.elements_issues ProductsModel (products o) ++
  Mongoose.number_path "totalAmount" None (totalAmount o).

(** [new Order({ ..., status: 'pending' })], lines 48-54: [orderDate] takes
    the schema's default. *)
Definition newOrder `{Host} (env : Env) (b : gmap string string) (f : File)
    (parsed : json) : Order :=
  {| customerInfo := customer b;
     products := Mongoose.document_array parsed;
     totalAmount := Mongoose.cast_number (b !! "totalAmount");
     paymentScreenshot := Some (path f);
     orderDate := Some (Date_now env);
     status := "pending";
     createdAt := None |}.

(** [!products || JSON.parse(products).length === 0], line 40. *)
Definition cart_empty `{Host} (b : gmap string string) : exn + bool :=
  if negb (truthy (b !! "products")) then mret true
  else
    parsed ← parse (b !! "products");
    len ← js_length parsed;
    mret (is_zero len).

(** The body of [try], lines 37-57. *)
Definition try_post `{Host} (env : Env) (req : Request) (w : World)
  : exn + (Outcome * World) :=
  let b := body req in
  empty ← cart_empty b;
  if (empty : bool)
  then mret (Sent 400 (ErrorOnly "Cart cannot be empty" None), w)
  else
    match file req with
    | Some f =>
        if negb (truthy (b !! "email")) || negb (truthy (b !! "address"))
        then mret (Sent 400 (ErrorOnly "Required fields missing" None), w)
        else
          parsed ← parse (b !! "products");
          '(saved, w') ← Mongoose.save OrderSchema false env
                            (newOrder env b f parsed) w;
          mret (Sent 201 (Bare saved), w')
    | None => mret (Sent 400 (ErrorOnly "Required fields missing" None), w)
    end.

(** The [catch] block, lines 58-64. *)
Definition catch `{Host} (error : exn) (w : World) : Outcome * World :=
  (Sent 400 (ErrorOnly "Order processing failed" (Some (message error))),
   log ("Order creation error: " +:+ message error) w).

(** The handler of [router.post('/', ...)], lines 35-65. *)
Definition post `{Host} (env : Env) (req : Request) (w : World) : Outcome * World :=
  match try_post env req w with
  | inr done => done
  | inl error => catch error w
  end.

(** The handler of [router.get('/', ...)], lines 68-79. *)
Definition get `{Host} (env : Env) (w : World) : Outcome * World :=
  match Mongoose.find orderDate env w with
  | inr found => (Sent 200 (BareList found), w)
  | inl error =>
      (Sent 500 (ErrorOnly "Failed to fetch orders" (Some (message error))),
       log ("Order fetch error: " +:+ message error) w)
  end.

(** A POST to the router: the upload middleware, then the handler; the
    router has no error middleware of its own. *)
Definition submit `{Host} (env : Env) (fields : gmap string string)
    (part : option Multer.Part) (w : World) : Outcome * World :=
  match Multer.single upload "paymentScreenshot" env part w with
  | (inl err, w') => (Next err, w')
  | (inr f, w') => post env {| body := fields; file := f |} w'
  end.

End Routes.

(** ** unnamed/part_000: the router of routes/orders.js in a second
    version, behind CORS and an HTTPS redirection that are left out here *)
Module Routes2.

Definition fileFilter (file : Multer.Part) : option exn :=
  if startsWith (Multer.part_mimetype file) "image/" then None
  else Some (Error "Only image files are allowed!").

Definition upload : Multer.Options :=
  {| Multer.destination := "uploads/payments/";
     Multer.fileFilter := fileFilter;
     Multer.fileSize := None |}.


(** [!Array.isArray(parsedProducts) || parsedProducts.length === 0] *)
Definition no_lines (parsedProducts : json) : bool :=
  match parsedProducts with
  | JArr items => bool_decide (length items = 0%nat)
  | _ => true
  end.

Definition newOrder `{Host} (env : Env) (b : gmap string string) (f : File)
    (parsedProducts : json) : Order :=
  {| customerInfo := customer b;
     products := Mongoose.document_array parsedProducts;
     totalAmount := Mongoose.cast_number (b !! "totalAmount");
     paymentScreenshot := Some (path f);
     orderDate := Some (Date_now env);
     status := "pending";
     createdAt := None |}.

(** The body of [try]. *)
Definition try_post `{Host} (env : Env) (req : Request) (w : World)
  : exn + (Outcome * World) :=
  let b := body req in
  if negb (truthy (b !! "products"))
  then mret (Sent 400 (ErrorOnly "Products data is required" None), w)
  else
    parsedProducts ← parse (b !! "products");
    if no_lines parsedProducts
    then mret (Sent 400 (ErrorOnly "Cart cannot be empty" None), w)
    else
      match file req with
      | Some f =>
          if negb (truthy (b !! "email")) || negb (truthy (b !! "address"))
          then mret (Sent 400 (ErrorOnly
                 "Required fields missing or payment screenshot not uploaded" None), w)
          else
            '(saved, w') ← Mongoose.save Routes.OrderSchema false env
                              (newOrder env b f parsedProducts) w;
            mret (Sent 201 (Created saved), w')
      | None =>
          mret (Sent 400 (ErrorOnly
                 "Required fields missing or payment screenshot not uploaded" None), w)
      end.

(** The handler of [router.post('/', ...)]. *)
Definition post `{Host} (env : Env) (req : Request) (w : World) : Outcome * World :=
  match try_post env req w with
  | inr done => done
  | inl error => Routes.catch error w
  end.

Definition submit `{Host} (env : Env) (fields : gmap string string)
    (part : option Multer.Part) (w : World) : Outcome * World :=
  match Multer.single upload "paymentScreenshot" env part w with
  | (inl err, w') => (Next err, w')
  | (inr f, w') => post env {| body := fields; file := f |} w'
  end.

End Routes2.

(** ** A host for the examples

    [JSON.parse], [Number] and [path.extname] on the strings the examples
    use; a double quote is written as an apostrophe and put in by [dq]. *)
Module Sample.

Definition dq_char (c : ascii) : ascii :=
  if Ascii.eqb c "'" then ascii_of_nat 34 else c.

Fixpoint dq (s : string) : string :=
  match s with
  | EmptyString => EmptyString
  | String c rest => String (dq_char c) (dq rest)
  end.

Definition widget_text : string :=
  dq "[{'productId':'p1','name':'Widget','price':100,'quantity':1}]".

Definition widget : json :=
  JObj [("productId", JStr "p1"); ("name", JStr "Widget");
        ("price", JNum (Fin 100)); ("quantity", JNum (Fin 1))].

Definition parse_table (s : string) : string + json :=
  if String.eqb s "[]" then inr (JArr [])
  else if String.eqb s widget_text then inr (JArr [widget])
  else if String.eqb s "null" then inr JNull
  else if String.eqb s (dq "{'length':0}") then inr (JObj [("length", JNum (Fin 0))])
  else if String.eqb s (dq "{'productId':'p1'}") then inr (JObj [("productId", JStr "p1")])
  else inl "Unexpected token in JSON".

Definition number_table (s : string) : number :=
  if String.eqb s "100" then Fin 100
  else if String.eqb s "-5" then Fin (-5)
  else NaN.

Definition extname_table (s : string) : string :=
  if String.eqb s "valid.jpg" then ".jpg"
  else if String.eqb s "receipt.pdf" then ".pdf"
  else if String.eqb s "anim.gif" then ".gif"
  else "".

Definition has_member (k : string) (members : list (string * json)) : bool :=
  existsb (fun m => String.eqb (fst m) k) members.

(** Elements that are objects with the four required members are taken as
    they are. *)
Definition element_table (_ : ElementSchema) (v : json) : list Issue :=
  match v with
  | JObj members =>
      if has_member "productId" members && has_member "name" members
         && has_member "price" members && has_member "quantity" members
      then []
      else [Mongoose.issue "products" "a required path is missing"]
  | _ => [Mongoose.issue "products" "Cast to embedded failed"]
  end.

Definition multer_table (code : string) : string :=
  if String.eqb code "LIMIT_FILE_SIZE" then "File too large"
  else if String.eqb code "LIMIT_UNEXPECTED_FILE" then "Unexpected field"
  else "".

Definition lower (c : ascii) : ascii :=
  let n := nat_of_ascii c in
  if (65 <=? n)%nat && (n <=? 90)%nat then ascii_of_nat (n + 32) else c.

(** The header up to its parameters, in lower case. *)
Fixpoint mime_table (header : string) : string :=
  match header with
  | EmptyString => EmptyString
  | String c rest =>
      if Ascii.eqb c ";" then EmptyString else String (lower c) (mime_table rest)
  end.

#[global] Instance host : Host :=
  {| JSON_parse := parse_table;
     Number := number_table;
     path_extname := extname_table;
     subdocument_issues := element_table;
     multer_message := multer_table;
     mimeType := mime_table |}.

Definition env : Env :=
  {| Date_now := 1700000000000;
     Math_random := 123456789;
     NODE_ENV := Some "production";
     save_fault := None;
     find_fault := None;
     unlink_fault := None |}.

Definition empty : World := {| files := ∅; orders := []; console := [] |}.

Definition jpg : Multer.Part :=
  {| Multer.part_mimetype := "image/jpeg";
     Multer.part_originalname := "valid.jpg";
     Multer.part_size := 204800 |}.

(** The submission of the scenario: every field valid, one product line. *)
Definition fields : gmap string string :=
  list_to_map [("name", "A"); ("email", "a@b.com"); ("phone", "1234567890");
               ("address", "X"); ("pincode", "000"); ("city", "Y");
               ("totalAmount", "100"); ("products", widget_text)].

Definition stored_name : string := "1700000000000-123456789.jpg".

(** [req.file] for [jpg] as server.js stores it, and as routes/orders.js
    does. *)
Definition file_server : File :=
  {| mimetype := "image/jpeg"; originalname := "valid.jpg";
     filename := stored_name; path := "uploads/" +:+ stored_name |}.

Definition file_router : File :=
  {| mimetype := "image/jpeg"; originalname := "valid.jpg";
     filename := stored_name; path := "uploads/payments/" +:+ stored_name |}.

(** The world once [f] is written. *)
Definition holding (f : File) : World :=
  {| files := {[path f]}; orders := []; console := [] |}.

(** The scenario's fields with [email] and [city] left out. *)
Definition no_email_city : gmap string string :=
  delete "email" (delete "city" fields).

Definition no_email : gmap string string := delete "email" fields.

(** The scenario with another [products] or [phone] field. *)
Definition malformed_products : gmap string string := <["products" := "{oops"]> fields.
Definition empty_cart : gmap string string := <["products" := "[]"]> fields.
Definition short_phone : gmap string string := <["phone" := "12345"]> fields.

Definition gif : Multer.Part :=
  {| Multer.part_mimetype := "image/gif";
     Multer.part_originalname := "anim.gif";
     Multer.part_size := 204800 |}.

Definition pdf : Multer.Part :=
  {| Multer.part_mimetype := "application/pdf";
     Multer.part_originalname := "receipt.pdf";
     Multer.part_size := 204800 |}.

(** One byte more than 5 MiB. *)
Definition large_jpg : Multer.Part :=
  {| Multer.part_mimetype := "image/jpeg";
     Multer.part_originalname := "valid.jpg";
     Multer.part_size := 5 * 1024 * 1024 + 1 |}.

(** The stored file cannot be deleted. *)
Definition env_unlink_fails : Env :=
  {| Date_now := 1700000000000;
     Math_random := 123456789;
     NODE_ENV := Some "production";
     save_fault := None;
     find_fault := None;
     unlink_fault := Some "EACCES: permission denied, unlink" |}.

Definition env_development : Env :=
  {| Date_now := 1700000000000;
     Math_random := 123456789;
     NODE_ENV := Some "development";
     save_fault := None;
     find_fault := None;
     unlink_fault := None |}.

(** An order saved at time [t]. *)
Definition order_at (t : Z) : Order :=
  {| customerInfo := customer fields;
     products := [widget];
     totalAmount := Some (Fin 100);
     paymentScreenshot := Some ("/uploads/" +:+ stored_name);
     orderDate := Some t;
     status := "pending";
     createdAt := Some t |}.

(** The collection after three orders were saved, oldest first. *)
Definition three_orders : World :=
  {| files := ∅; orders := [order_at 10; order_at 20; order_at 30]; console := [] |}.



(** The world once [f] is written and [o] saved. *)
Definition holding_order (f : File) (o : Order) : World :=
  {| files := {[path f]}; orders := [o]; console := [] |}.

(** The scenario's file with its type as some clients write it. *)
Definition jpg_upper : Multer.Part :=
  {| Multer.part_mimetype := "image/JPEG";
     Multer.part_originalname := "valid.jpg";
     Multer.part_size := 204800 |}.

(** Just 5 MiB. *)
Definition full_jpg : Multer.Part :=
  {| Multer.part_mimetype := "image/jpeg";
     Multer.part_originalname := "valid.jpg";
     Multer.part_size := 5 * 1024 * 1024 |}.

(** An order dated [t], with [createdAt] as given. *)
Definition order_dated (t : Z) (created : option Z) : Order :=
  {| customerInfo := customer fields;
     products := [widget];
     totalAmount := Some (Fin 100);
     paymentScreenshot := Some ("uploads/payments/" +:+ stored_name);
     orderDate := Some t;
     status := "pending";
     createdAt := created |}.

(** The collection after routes/orders.js saved three orders, oldest
    first: models/Order.js keeps no [createdAt]. *)
Definition three_routed_orders : World :=
  {| files := ∅;
     orders := [order_dated 10 None; order_dated 20 None; order_dated 30 None];
     console := [] |}.

(** Three orders whose [createdAt] runs against their [orderDate]. *)
Definition three_crossed_orders : World :=
  {| files := ∅;
     orders := [order_dated 30 (Some 1); order_dated 10 (Some 3);
                order_dated 20 (Some 2)];
     console := [] |}.

End Sample.

(** ** Vocabulary of the properties *)

(** [msg.includes(field)]: the text names the field. *)
Fixpoint mentions (msg field : string) : bool :=
  String.prefix field msg ||
  match msg with
  | EmptyString => false
  | String _ rest => mentions rest field
  end.

(** Every character of [s] satisfies [p]. *)
Fixpoint every (p : ascii -> bool) (s : string) : bool :=
  match s with
  | EmptyString => true
  | String c rest => p c && every p rest
  end.

(** [a] may stand before [b] in a listing that descends on [key]. *)
Definition descends (key : Order -> option Z) (a b : Order) : Prop :=
  Mongoose.key_le (key b) (key a) = true.

(** A request to one of the programs. *)
Inductive Call :=
| POST (env : Env) (fields : gmap string string) (part : option Multer.Part)
| GET (env : Env).

Definition server1 `{Host} (c : Call) (w : World) : Outcome * World :=
  match c with
  | POST env fields part => Server1.submit env fields part w
  | GET env => Server1.get_orders env w
  end.

Definition server2 `{Host} (c : Call) (w : World) : Outcome * World :=
  match c with
  | POST env fields part => Server2.submit env fields part w
  | GET env => Server2.get_orders env w
  end.

Definition router `{Host} (c : Call) (w : World) : Outcome * World :=
  match c with
  | POST env fields part => Routes.submit env fields part w
  | GET env => Routes.get env w
  end.

Definition router2 `{Host} (c : Call) (w : World) : Outcome * World :=
  match c with
  | POST env fields part => Routes2.submit env fields part w
  | GET env => Routes.get env w
  end.

(** The worlds a program reaches from an empty collection. *)
Inductive reachable (serve : Call -> World -> Outcome * World) : World -> Prop :=
| reach_start w : orders w = [] -> reachable serve w
| reach_call c w : reachable serve w -> reachable serve (snd (serve c w)).

Definition has_screenshot (o : Order) : Prop :=
  exists ref, paymentScreenshot o = Some ref /\ ref <> "".

Definition has_products (o : Order) : Prop := products o <> [].

(** The orders a call added to the collection. *)
Definition persisted (before after : World) (o : Order) : Prop :=
  orders after = (orders before ++ [o])%list.

(** The orders a handler may save: pending, with a reference to the stored
    file. *)
Definition fresh_order (o : Order) : Prop :=
  status o = "pending" /\ has_screenshot o.

(** Two bodies that differ at most in the field [status]. *)
Definition same_but_status (b b' : gmap string string) : Prop :=
  forall k, k <> "status" -> b !! k = b' !! k.

(** ** Start-up

    What the start of a program does, in order: calls of
    [mongoose.connect], lines printed, waits, the call of [app.listen] and
    the end of the process. [attempt n] is the failure of the call number
    [n] of [mongoose.connect], counted from 0, or [None] when it
    succeeds. *)
Inductive Event :=
| Connect
| Printed (line : string)
| Wait (ms : Z)
| Listen (port : string)
| Exit (code : Z).

(** [process.env.PORT || 5000] *)
Definition port (PORT : option string) : string :=
  if truthy PORT then toString PORT else "5000".

(** server.js, lines 42-53 and 171-179. *)
Module Startup1.

(** [connectDB]: whether it returned, and what happened; on a failure
    [process.exit(1)] ends the process inside it. *)
Definition connectDB (attempt : nat -> option string) : bool * list Event :=
  match attempt 0%nat with
  | None => (true, [Connect; Printed "MongoDB connected successfully"])
  | Some m => (false, [Connect; Printed ("MongoDB connection error: " +:+ m); Exit 1])
  end.

Definition startServer (PORT : option string) (attempt : nat -> option string)
  : list Event :=
  let '(returned, trace) := connectDB attempt in
  if returned
  then (trace ++ [Listen (port PORT);
                  Printed ("Server running on port " +:+ port PORT)])%list
  else trace.

End Startup1.

(** server.js, lines 220-245 and 423-435. *)
Module Startup2.

Definition maxRetries : nat := 3.

(** The [while] loop of [connectDB], from the state [retries] on; [fuel]
    bounds the number of rounds. The result is the message of the error
    thrown, or [tt] when the function returns. *)
Fixpoint connect_loop (attempt : nat -> option string) (fuel retries : nat)
    (trace : list Event) : option ((string + unit) * list Event) :=
  match fuel with
  | O => None
  | S fuel' =>
      if (retries <? maxRetries)%nat then
        match attempt retries with
        | None =>
            Some (inr tt, (trace ++ [Connect; Printed "MongoDB connected successfully"])%list)
        | Some m =>
            let retries' := S retries in
            let trace' :=
              (trace ++ [Connect;
                         Printed ("MongoDB connection attempt " +:+ pretty retries'
                                  +:+ " failed: " +:+ m)])%list in
            if (retries' <? maxRetries)%nat
            then connect_loop attempt fuel' retries' (trace' ++ [Wait 5000])%list
            else Some (inl m,
                       (trace' ++ [Printed
                          "Failed to connect to MongoDB after maximum retries."])%list)
        end
      else Some (inr tt, trace)
  end.

Definition connectDB (attempt : nat -> option string) (fuel : nat)
  : option ((string + unit) * list Event) :=
  connect_loop attempt fuel 0 [].

Definition startServer (PORT : option string) (attempt : nat -> option string)
    (fuel : nat) : option (list Event) :=
  match connectDB attempt fuel with
  | None => None
  | Some (inr _, trace) =>
      Some (trace ++ [Listen (port PORT);
                      Printed ("Server running on port " +:+ port PORT);
                      Printed ("http://localhost:" +:+ port PORT)])%list
  | Some (inl m, trace) =>
      Some (trace ++ [Printed ("Server startup error: " +:+ m); Exit 1])%list
  end.

End Startup2.

(** ** unnamed/part_000, lines 16-22: the HTTPS redirection in front of the
    router *)
Module Https.

Record Headers := {
  x_forwarded_proto : option string;   (* req.headers['x-forwarded-proto'] *)
  host : option string                 (* req.headers.host *)
}.

(** [res.redirect(location)], or [next()]. *)
Inductive Step :=
| Redirect (location : string)
| Pass.

Definition forceHttps (env : Env) (h : Headers) (url : string) : Step :=
  if negb (bool_decide (x_forwarded_proto h = Some "https"))
     && bool_decide (NODE_ENV env = Some "production")
  then Redirect ("https://" +:+ toString (host h) +:+ url)
  else Pass.

(** What the client gets from the router: the redirection, or the outcome
    of the route. *)
Inductive Answer :=
| Redirected (location : string)
| Routed (outcome : Outcome).

(** A POST to the router of unnamed/part_000: the redirection middleware,
    then the upload and the handler. *)
Definition submit `{Host} (env : Env) (h : Headers) (url : string)
    (fields : gmap string string) (part : option Multer.Part) (w : World)
  : Answer * World :=
  match forceHttps env h url with
  | Redirect location => (Redirected location, w)
  | Pass =>
      let '(outcome, w') := Routes2.submit env fields part w in
      (Routed outcome, w')
  end.

End Https.

(** ** Vocabulary of the further properties *)

Definition connects (trace : list Event) : nat :=
  length (List.filter (fun e => match e with Connect => true | _ => false end) trace).

Definition waits (trace : list Event) : list Z :=
  flat_map (fun e => match e with Wait ms => [ms] | _ => [] end) trace.



(** The first call of [mongoose.connect] that succeeds is call [n]. *)
Definition first_success (attempt : nat -> option string) (n : nat) : Prop :=
  attempt n = None /\ forall k, (k < n)%nat -> attempt k <> None.

(** The status code of an outcome that is a response. *)
Definition code_of (o : Outcome) : option Z :=
  match o with
  | Sent code _ => Some code
  | _ => None
  end.

(** The order a response carries. *)
Definition order_of (o : Outcome) : option Order :=
  match o with
  | Sent _ (Created order) => Some order
  | Sent _ (Bare order) => Some order
  | _ => None
  end.

(** The answer tells what happened to the collection: 201 with the order
    that was added at its end, or another outcome and the collection as it
    was. *)
Definition answer_matches_collection (w : World) (r : Outcome * World) : Prop :=
  (exists o, code_of (fst r) = Some 201 /\ order_of (fst r) = Some o
             /\ persisted w (snd r) o)
  \/ (code_of (fst r) <> Some 201 /\ orders (snd r) = orders w).

(** The contact data the schema of server.js, lines 269-302, asks for. *)
Definition valid_contact `{Host} (o : Order) : Prop :=
  (exists e, email (customerInfo o) = Some e
             /\ RegExp.test Server2.email_re e = true)
  /\ (exists p, phone (customerInfo o) = Some p
                /\ String.length p = 10%nat /\ every RegExp.is_digit p = true)
  /\ (exists n, totalAmount o = Some n /\ number_ge n 0 = true).




(** No character of [s] is a line terminator. *)
Definition one_line (s : string) : bool :=
  every (fun c => negb (RegExp.is_line_terminator c)) s.

(** * Properties *)

Example scenario_server2 :
  exists o,
    Server2.submit Sample.env Sample.fields (Some Sample.jpg) Sample.empty
    = (Sent 201 (Created o),
       {| files := {["uploads/" +:+ Sample.stored_name]};
          orders := [o]; console := [] |})
    /\ status o = "pending" /\ length (products o) = 1%nat.
Proof. eexists. split; [vm_compute; reflexivity | split; reflexivity]. Qed.

(** ** Texts that name a field *)

Lemma append_cons (c : ascii) (f x : string) :
  String c f +:+ x = String c (f +:+ x).
Proof. reflexivity. Qed.

Lemma append_empty_r (f : string) : f +:+ "" = f.
Proof. induction f as [|c f IH]; [done | by rewrite append_cons, IH]. Qed.

Lemma prefix_append (f x : string) : String.prefix f (f +:+ x) = true.
Proof.
  induction f as [|c f IH]; [by destruct x |].
  rewrite append_cons. simpl.
  destruct (ascii_dec c c); [exact IH | congruence].
Qed.

Lemma mentions_prefix (m f : string) :
  String.prefix f m = true -> mentions m f = true.
Proof. destruct m; simpl; intros ->; done. Qed.

Lemma mentions_here (f x : string) : mentions (f +:+ x) f = true.
Proof. apply mentions_prefix, prefix_append. Qed.

Lemma mentions_skip (p m f : string) :
  mentions m f = true -> mentions (p +:+ m) f = true.
Proof.
  intros Hm. induction p as [|c p IH]; [exact Hm |].
  rewrite append_cons. simpl. rewrite IH. apply orb_true_r.
Qed.

Lemma mentions_whole (f : string) : mentions f f = true.
Proof. rewrite <- (append_empty_r f) at 1. apply mentions_here. Qed.

Lemma mentions_join (sep : string) (l : list string) (f : string) :
  In f l -> mentions (join sep l) f = true.
Proof.
  induction l as [|x rest IH]; [intros [] |].
  intros [-> | Hin].
  - destruct rest; [apply mentions_whole | apply mentions_here].
  - specialize (IH Hin). destruct rest as [|y rest']; [destruct Hin |].
    change (join sep (x :: y :: rest')) with (x +:+ sep +:+ join sep (y :: rest')).
    by do 2 apply mentions_skip.
Qed.

Lemma missingFields_In (b : gmap string string) (field : string) :
  In field (Server2.missingFields b)
  <-> In field Server2.requiredFields /\ truthy (b !! field) = false.
Proof.
  unfold Server2.missingFields. rewrite filter_In, negb_true_iff. tauto.
Qed.

Lemma missingFields_absent (b : gmap string string) (field : string) :
  In field Server2.requiredFields -> b !! field = None ->
  In field (Server2.missingFields b).
Proof. intros Hin Hnone. apply missingFields_In. by rewrite Hnone. Qed.

(** ** The paths through the handler of server.js, lines 307-374 *)

Lemma server2_no_file `{Host} env req w :
  file req = None ->
  Server2.post_orders env req w
  = (Sent 400 (Failure "Payment screenshot is required" None), w).
Proof. intros Hf. unfold Server2.post_orders, Server2.try_post. by rewrite Hf. Qed.

Lemma server2_missing `{Host} env req w f :
  file req = Some f ->
  Server2.missingFields (body req) <> [] ->
  Server2.post_orders env req w
  = (Sent 400 (Failure ("Missing required fields: "
                          +:+ join ", " (Server2.missingFields (body req))) None), w).
Proof.
  intros Hf Hm. unfold Server2.post_orders, Server2.try_post. rewrite Hf.
  destruct (Server2.missingFields (body req)); [done | reflexivity].
Qed.

Lemma server2_bad_json `{Host} env req w f m :
  file req = Some f ->
  Server2.missingFields (body req) = [] ->
  JSON_parse (toString (body req !! "products")) = inl m ->
  Server2.post_orders env req w
  = (Sent 400 (Failure "Invalid products format" None), w).
Proof.
  intros Hf Hm Hp. unfold Server2.post_orders, Server2.try_post, parse.
  by rewrite Hf, Hm, Hp.
Qed.

Lemma server2_invalid `{Host} env req w f parsed :
  file req = Some f ->
  Server2.missingFields (body req) = [] ->
  JSON_parse (toString (body req !! "products")) = inr parsed ->
  Server2.orderSchema (Server2.newOrder env (body req) f parsed) <> [] ->
  Server2.post_orders env req w
  = Server2.catch env req
      (ValidationError (Server2.orderSchema (Server2.newOrder env (body req) f parsed))) w.
Proof.
  intros Hf Hm Hp Hi. unfold Server2.post_orders, Server2.try_post, parse.
  rewrite Hf, Hm, Hp. simpl. unfold Mongoose.save.
  destruct (Server2.orderSchema _); [done | reflexivity].
Qed.

Lemma server2_save_fault `{Host} env req w f parsed m :
  file req = Some f ->
  Server2.missingFields (body req) = [] ->
  JSON_parse (toString (body req !! "products")) = inr parsed ->
  Server2.orderSchema (Server2.newOrder env (body req) f parsed) = [] ->
  save_fault env = Some m ->
  Server2.post_orders env req w = Server2.catch env req (Error m) w.
Proof.
  intros Hf Hm Hp Hi Hs. unfold Server2.post_orders, Server2.try_post, parse.
  rewrite Hf, Hm, Hp. simpl. unfold Mongoose.save. by rewrite Hi, Hs.
Qed.

Lemma server2_saved `{Host} env req w f parsed :
  file req = Some f ->
  Server2.missingFields (body req) = [] ->
  JSON_parse (toString (body req !! "products")) = inr parsed ->
  Server2.orderSchema (Server2.newOrder env (body req) f parsed) = [] ->
  save_fault env = None ->
  let saved := Mongoose.stamp true env (Server2.newOrder env (body req) f parsed) in
  Server2.post_orders env req w = (Sent 201 (Created saved), insert_order saved w).
Proof.
  intros Hf Hm Hp Hi Hs. unfold Server2.post_orders, Server2.try_post, parse.
  rewrite Hf, Hm, Hp. simpl. unfold Mongoose.save. by rewrite Hi, Hs.
Qed.

(** ** C2 *)

(** C2, as the handler of server.js (lines 307-374) has it: when the
    submission carries its file and omits required fields, the answer is
    400 with the message "Missing required fields: " followed by the
    comma-separated names of all absent fields, so the message names each of
    them; nothing else changes. *)
Theorem C2_server_names_every_missing_field `{Host} env req w f :
  file req = Some f ->
  (exists field, In field Server2.requiredFields /\ body req !! field = None) ->
  let msg := "Missing required fields: "
               +:+ join ", " (Server2.missingFields (body req)) in
  Server2.post_orders env req w = (Sent 400 (Failure msg None), w)
  /\ forall field, In field Server2.requiredFields -> body req !! field = None ->
       mentions msg field = true.
Proof.
  intros Hf [field [Hin Hnone]] msg. split.
  - apply server2_missing with f; [exact Hf |].
    intros Hnil. pose proof (missingFields_absent _ _ Hin Hnone) as Hm.
    rewrite Hnil in Hm. destruct Hm.
  - intros g Hg Hgnone. apply mentions_skip, mentions_join.
    by apply missingFields_absent.
Qed.

Lemma C2_server_witness :
  Server2.post_orders Sample.env
    {| body := Sample.no_email_city; file := Some Sample.file_server |}
    (Sample.holding Sample.file_server)
  = (Sent 400 (Failure "Missing required fields: email, city" None),
     Sample.holding Sample.file_server)
  /\ forall field, In field Server2.requiredFields ->
       Sample.no_email_city !! field = None ->
       mentions "Missing required fields: email, city" field = true.
Proof.
  apply (C2_server_names_every_missing_field Sample.env
           {| body := Sample.no_email_city; file := Some Sample.file_server |}
           (Sample.holding Sample.file_server) Sample.file_server).
  - reflexivity.
  - exists "email". split; [simpl; tauto | vm_compute; reflexivity].
Defined.

(** C2 fails on routes/orders.js: with [email] and [city] left out the
    answer is 400 "Required fields missing", which names neither. *)
Lemma C2_router_names_no_field :
  Sample.no_email_city !! "email" = None
  /\ Sample.no_email_city !! "city" = None
  /\ exists msg,
       fst (Routes.post Sample.env
              {| body := Sample.no_email_city; file := Some Sample.file_router |}
              (Sample.holding Sample.file_router))
       = Sent 400 (ErrorOnly msg None)
       /\ mentions msg "email" = false /\ mentions msg "city" = false.
Proof.
  split; [vm_compute; reflexivity |]. split; [vm_compute; reflexivity |].
  exists "Required fields missing". repeat split; vm_compute; reflexivity.
Qed.

(** ** C1 *)

Lemma server2_early_return_keeps_world `{Host} env req w f :
  file req = Some f ->
  Server2.missingFields (body req) <> []
  \/ (exists m, JSON_parse (toString (body req !! "products")) = inl m) ->
  snd (Server2.post_orders env req w) = w.
Proof.
  intros Hf [Hm | [m Hp]].
  - by rewrite (server2_missing env req w f Hf Hm).
  - destruct (Server2.missingFields (body req)) eqn:E.
    + by rewrite (server2_bad_json env req w f m Hf E Hp).
    + rewrite (server2_missing env req w f Hf); [done | by rewrite E].
Qed.

Lemma server2_catch_deletes `{Host} env req error w f :
  file req = Some f -> unlink_fault env = None ->
  path f ∉ files (snd (Server2.catch env req error w)).
Proof.
  intros Hf Hu. unfold Server2.catch. rewrite Hf, Hu. simpl.
  apply not_elem_of_difference. right. by apply elem_of_singleton.
Qed.

(** C1 at a submission that leaves [email] out, on the handler of
    server.js, lines 307-374: the answer is 400 and the file multer wrote is
    still in storage, where the [catch] block of the same handler would have
    deleted it. *)
Theorem C1_missing_field_leaves_upload :
  Server2.submit Sample.env Sample.no_email (Some Sample.jpg) Sample.empty
  = (Sent 400 (Failure "Missing required fields: email" None),
     {| files := {["uploads/" +:+ Sample.stored_name]}; orders := []; console := [] |}).
Proof. vm_compute. reflexivity. Qed.

(** ** C9 *)

Lemma server2_catch_answer `{Host} env req error w :
  fst (Server2.catch env req error w)
  = Sent 500 (Failure "Failed to create order" (Server2.diagnostic env error)).
Proof. reflexivity. Qed.

Lemma server1_catch_unlink_throws `{Host} env req error w f m :
  file req = Some f -> unlink_fault env = Some m ->
  fst (Server1.catch env req error w) = Rejected (Error m).
Proof. intros Hf Hu. unfold Server1.catch. by rewrite Hf, Hu. Qed.

(** C9 on the handler of server.js, lines 108-135, at a submission whose
    [products] is not JSON while the stored file cannot be deleted:
    [fs.unlinkSync] throws inside the [catch] block, the handler ends with
    that error and the answer 500 "Failed to create order" is never sent. *)
Theorem C9_unlinkSync_failure_escapes :
  fst (Server1.post_orders Sample.env_unlink_fails
         {| body := Sample.malformed_products; file := Some Sample.file_server |}
         (Sample.holding Sample.file_server))
  = Rejected (Error "EACCES: permission denied, unlink").
Proof. vm_compute. reflexivity. Qed.

(** ** C3 *)

Lemma includes_In (l : list string) (x : string) : includes l x = true <-> In x l.
Proof.
  unfold includes. rewrite existsb_exists. split.
  - intros [y [Hy Heq]]. apply String.eqb_eq in Heq. by subst.
  - intros Hx. exists x. split; [done | apply String.eqb_refl].
Qed.

Lemma includes_not_In (l : list string) (x : string) :
  ~ In x l -> includes l x = false.
Proof.
  intros Hn. destruct (includes l x) eqn:E; [| done].
  by apply includes_In in E.
Qed.

(** C3, as the programs have it, on the MIME type multer reports for the
    file ([file.mimetype]: the declared type in lower case, without
    parameters). server.js rejects every upload whose type is outside
    image/jpeg, image/png, image/jpg before anything is stored and whatever
    the fields are (lines 179-454 answer 400, lines 1-179 answer 500).
    routes/orders.js and unnamed/part_000 refuse the upload exactly when
    the type does not start with image/: then the request ends with the
    error "Only image files are allowed!" and nothing is stored; otherwise
    the file is stored and the handler runs with it. *)
Theorem C3_type_outside_allow_set_rejected `{Host} env fields part w :
  (~ In (Multer.part_mimetype (Multer.received part)) Server2.allowedTypes ->
     (exists msg,
        fst (Server2.submit env fields (Some part) w) = Sent 400 (Failure msg None))
     /\ files (snd (Server2.submit env fields (Some part) w)) = files w
     /\ orders (snd (Server2.submit env fields (Some part) w)) = orders w
     /\ fst (Server1.submit env fields (Some part) w)
        = Sent 500 (Failure "Something went wrong!" None)
     /\ files (snd (Server1.submit env fields (Some part) w)) = files w
     /\ orders (snd (Server1.submit env fields (Some part) w)) = orders w)
  /\ (startsWith (Multer.part_mimetype (Multer.received part)) "image/" = false ->
      Routes.submit env fields (Some part) w
      = (Next (Error "Only image files are allowed!"), w)
      /\ Routes2.submit env fields (Some part) w
         = (Next (Error "Only image files are allowed!"), w))
  /\ (startsWith (Multer.part_mimetype (Multer.received part)) "image/" = true ->
      Routes.submit env fields (Some part) w
      = Routes.post env
          {| body := fields;
             file := Some (Multer.stored Routes.upload env (Multer.received part)) |}
          (Multer.store_file
             (path (Multer.stored Routes.upload env (Multer.received part))) w)
      /\ Routes2.submit env fields (Some part) w
         = Routes2.post env
             {| body := fields;
                file := Some (Multer.stored Routes2.upload env (Multer.received part)) |}
             (Multer.store_file
                (path (Multer.stored Routes2.upload env (Multer.received part))) w)).
Proof.
  split; [| split].
  - intros Hout. apply includes_not_In in Hout.
    unfold Server2.submit, Server1.submit, Multer.single.
    change (Multer.fileFilter Server2.upload) with Server2.fileFilter.
    change (Multer.fileFilter Server1.upload) with Server1.fileFilter.
    unfold Server2.fileFilter, Server1.fileFilter.
    change Server1.allowedTypes with Server2.allowedTypes. rewrite Hout. simpl.
    repeat split. eexists; reflexivity.
  - intros Hout. unfold Routes.submit, Routes2.submit, Multer.single.
    change (Multer.fileFilter Routes.upload) with Routes.fileFilter.
    change (Multer.fileFilter Routes2.upload) with Routes2.fileFilter.
    unfold Routes.fileFilter, Routes2.fileFilter. rewrite Hout. done.
  - intros Hin. unfold Routes.submit, Routes2.submit, Multer.single.
    change (Multer.fileFilter Routes.upload) with Routes.fileFilter.
    change (Multer.fileFilter Routes2.upload) with Routes2.fileFilter.
    unfold Routes.fileFilter, Routes2.fileFilter. rewrite Hin. done.
Qed.

Lemma C3_pdf_rejected_everywhere :
  fst (Server2.submit Sample.env Sample.fields (Some Sample.pdf) Sample.empty)
  = Sent 400 (Failure "Unexpected field" None)
  /\ fst (Server1.submit Sample.env Sample.fields (Some Sample.pdf) Sample.empty)
     = Sent 500 (Failure "Something went wrong!" None)
  /\ Routes.submit Sample.env Sample.fields (Some Sample.pdf) Sample.empty
     = (Next (Error "Only image files are allowed!"), Sample.empty)
  /\ Routes2.submit Sample.env Sample.fields (Some Sample.pdf) Sample.empty
     = (Next (Error "Only image files are allowed!"), Sample.empty)
  /\ (exists o,
        Routes.submit Sample.env Sample.fields (Some Sample.jpg) Sample.empty
        = (Sent 201 (Bare o), Sample.holding_order Sample.file_router o))
  /\ (exists o,
        Routes2.submit Sample.env Sample.fields (Some Sample.jpg) Sample.empty
        = (Sent 201 (Created o), Sample.holding_order Sample.file_router o)).
Proof.
  assert (Hout : ~ In (Multer.part_mimetype (Multer.received Sample.pdf))
                      Server2.allowedTypes).
  { vm_compute. intros [E | [E | [E | []]]]; discriminate E. }
  destruct (C3_type_outside_allow_set_rejected
              Sample.env Sample.fields Sample.pdf Sample.empty)
    as (Hs & Hr & _).
  destruct (Hs Hout) as (_ & _ & _ & H1 & _ & _).
  destruct (Hr ltac:(reflexivity)) as [Hr1 Hr2].
  destruct (C3_type_outside_allow_set_rejected
              Sample.env Sample.fields Sample.jpg Sample.empty)
    as (_ & _ & Ha).
  destruct (Ha ltac:(reflexivity)) as [Ha1 Ha2].
  split; [reflexivity |]. split; [exact H1 |]. split; [exact Hr1 |].
  split; [exact Hr2 |]. split.
  - eexists. rewrite Ha1. vm_compute. reflexivity.
  - eexists. rewrite Ha2. vm_compute. reflexivity.
Defined.

(** C3 fails on routes/orders.js: image/gif is outside the allow-set and the
    upload is accepted, stored, and the order saved with it. *)
Lemma C3_router_accepts_gif :
  includes Server2.allowedTypes (Multer.part_mimetype (Multer.received Sample.gif))
  = false
  /\ exists o,
       Routes.submit Sample.env Sample.fields (Some Sample.gif) Sample.empty
       = (Sent 201 (Bare o),
          {| files := {["uploads/payments/1700000000000-123456789.gif"]};
             orders := [o]; console := [] |}).
Proof. split; [reflexivity |]. eexists. vm_compute. reflexivity. Qed.

(** The type is compared as multer reports it: image/JPEG, as a client may
    write it, is image/jpeg to the filter of server.js, and the order is
    saved. *)
Example server2_accepts_upper_case_type :
  exists o,
    Server2.submit Sample.env Sample.fields (Some Sample.jpg_upper) Sample.empty
    = (Sent 201 (Created o), Sample.holding_order Sample.file_server o).
Proof. eexists. vm_compute. reflexivity. Qed.

(** ** C4 *)




(** ** The patterns of the order schema *)

Lemma exactly_to_end (k : RegExp.cls) (n : nat) (s : string) :
  RegExp.exactly k n s (fun rest => String.eqb rest "") = true
  <-> String.length s = n /\ every (RegExp.accepts k) s = true.
Proof.
  revert s. induction n as [|n IH]; intros s; simpl.
  - rewrite String.eqb_eq. split.
    + intros ->. done.
    + intros [Hl _]. by destruct s.
  - destruct s as [|c rest]; simpl.
    + split; [done | intros [Hl _]; discriminate Hl].
    + rewrite andb_true_iff, IH. split.
      * intros [Hc [Hl He]]. rewrite Hc, He, Hl. done.
      * intros [Hl He]. apply andb_true_iff in He as [Hc He].
        injection Hl as Hl. done.
Qed.

(** A line separator starts with a byte that is no digit, and the line
    feed written for it is none either. *)
Lemma digit_starts_no_separator (c1 c2 c3 : ascii) :
  RegExp.is_digit c1 = true -> RegExp.is_separator c1 c2 c3 = false.
Proof.
  intros Hd. unfold RegExp.is_separator.
  destruct (Ascii.eqb_spec c1 "226") as [-> |]; [discriminate Hd | reflexivity].
Qed.

Lemma line_separators_digits (s : string) :
  every RegExp.is_digit s = true -> RegExp.line_separators s = s.
Proof.
  induction s as [|c1 tail IH]; [done |]. intros Hd.
  change (every RegExp.is_digit (String c1 tail))
    with (RegExp.is_digit c1 && every RegExp.is_digit tail) in Hd.
  apply andb_true_iff in Hd as [Hc Ht]. specialize (IH Ht).
  destruct tail as [|c2 [|c3 rest]].
  - reflexivity.
  - change (RegExp.line_separators (String c1 (String c2 "")))
      with (String c1 (RegExp.line_separators (String c2 ""))).
    by rewrite IH.
  - change (RegExp.line_separators (String c1 (String c2 (String c3 rest))))
      with (if RegExp.is_separator c1 c2 c3
            then String "010" (RegExp.line_separators rest)
            else String c1 (RegExp.line_separators (String c2 (String c3 rest)))).
    rewrite (digit_starts_no_separator c1 c2 c3 Hc). by rewrite IH.
Qed.

Lemma digits_after_separators (s : string) :
  every RegExp.is_digit (RegExp.line_separators s) = true
  -> every RegExp.is_digit s = true.
Proof.
  induction s as [|c1 tail IH]; [done |].
  destruct tail as [|c2 [|c3 rest]].
  - done.
  - change (RegExp.line_separators (String c1 (String c2 "")))
      with (String c1 (RegExp.line_separators (String c2 ""))).
    change (every RegExp.is_digit (String c1 ?t))
      with (RegExp.is_digit c1 && every RegExp.is_digit t).
    intros [Hc Ht]%andb_true_iff.
    change (every RegExp.is_digit (String c1 (String c2 "")))
      with (RegExp.is_digit c1 && every RegExp.is_digit (String c2 "")).
    by rewrite Hc, (IH Ht).
  - change (RegExp.line_separators (String c1 (String c2 (String c3 rest))))
      with (if RegExp.is_separator c1 c2 c3
            then String "010" (RegExp.line_separators rest)
            else String c1 (RegExp.line_separators (String c2 (String c3 rest)))).
    destruct (RegExp.is_separator c1 c2 c3); [discriminate |].
    change (every RegExp.is_digit (String c1 ?t))
      with (RegExp.is_digit c1 && every RegExp.is_digit t).
    intros [Hc Ht]%andb_true_iff.
    change (every RegExp.is_digit (String c1 (String c2 (String c3 rest))))
      with (RegExp.is_digit c1 && every RegExp.is_digit (String c2 (String c3 rest))).
    by rewrite Hc, (IH Ht).
Qed.

Lemma digits_have_no_separator (s : string) :
  every RegExp.is_digit (RegExp.line_separators s) = true
  -> RegExp.line_separators s = s.
Proof. intros Hd. apply line_separators_digits, digits_after_separators, Hd. Qed.

(** [/^\d{10}$/] holds of exactly the strings of ten decimal digits. *)
Lemma phone_re_ten_digits (s : string) :
  RegExp.test Server2.phone_re s = true
  <-> String.length s = 10%nat /\ every RegExp.is_digit s = true.
Proof.
  change (RegExp.test Server2.phone_re s)
    with (RegExp.exactly RegExp.Digit 10 (RegExp.line_separators s)
            (fun rest => String.eqb rest "")).
  rewrite exactly_to_end. change (RegExp.accepts RegExp.Digit) with RegExp.is_digit.
  split.
  - intros [Hl Hd]. pose proof (digits_have_no_separator s Hd) as E.
    rewrite E in Hl, Hd. done.
  - intros [Hl Hd]. by rewrite (line_separators_digits s Hd).
Qed.

Example email_re_accepts : RegExp.test Server2.email_re "a@b.com" = true.
Proof. reflexivity. Qed.

Example email_re_needs_at : RegExp.test Server2.email_re "ab.com" = false.
Proof. reflexivity. Qed.

Example email_re_needs_dot : RegExp.test Server2.email_re "a@bcom" = false.
Proof. reflexivity. Qed.

Example email_re_needs_local : RegExp.test Server2.email_re "@b.com" = false.
Proof. reflexivity. Qed.

Example phone_re_rejects_short : RegExp.test Server2.phone_re "12345" = false.
Proof. reflexivity. Qed.

Example phone_re_rejects_letters : RegExp.test Server2.phone_re "12345abcde" = false.
Proof. reflexivity. Qed.

(** ** Messages of validation errors *)

Lemma prefix_append_r (f m x : string) :
  String.prefix f m = true -> String.prefix f (m +:+ x) = true.
Proof.
  revert m. induction f as [|c f IH]; intros m.
  - intros _. by destruct (m +:+ x).
  - destruct m as [|d m]; [simpl; done |]. rewrite append_cons. simpl.
    destruct (ascii_dec c d); [apply IH | done].
Qed.

Lemma mentions_append_r (m x f : string) :
  mentions m f = true -> mentions (m +:+ x) f = true.
Proof.
  induction m as [|c m IH].
  - simpl. rewrite orb_false_r. intros Hp. destruct f; [| discriminate Hp].
    by destruct x.
  - intros Hm. apply orb_true_iff in Hm as [Hp | Hm].
    + apply mentions_prefix. by apply prefix_append_r.
    + rewrite append_cons. simpl. rewrite (IH Hm). apply orb_true_r.
Qed.

Lemma mentions_join_item (sep : string) (l : list string) (x f : string) :
  In x l -> mentions x f = true -> mentions (join sep l) f = true.
Proof.
  intros Hin Hx. induction l as [|y rest IH]; [destruct Hin |].
  destruct rest as [|z rest'].
  - destruct Hin as [-> | []]. exact Hx.
  - change (join sep (y :: z :: rest')) with (y +:+ sep +:+ join sep (z :: rest')).
    destruct Hin as [-> | Hin].
    + by apply mentions_append_r.
    + do 2 apply mentions_skip. by apply IH.
Qed.

Lemma message_names_issue `{Host} (issues : list Issue) (i : Issue) :
  In i issues -> mentions (message (ValidationError issues)) (at_path i) = true.
Proof.
  intros Hin. unfold message. apply mentions_skip.
  apply mentions_join_item with (issue_text i).
  - by apply in_map.
  - apply mentions_here.
Qed.

(** ** C5 *)

Lemma truthy_Some (v : option string) :
  truthy v = true -> exists s, v = Some s /\ String.eqb s "" = false.
Proof.
  destruct v as [s|]; [| discriminate]. simpl. intros Hs%negb_true_iff. eauto.
Qed.

Lemma missingFields_nil (b : gmap string string) (field : string) :
  Server2.missingFields b = [] -> In field Server2.requiredFields ->
  truthy (b !! field) = true.
Proof.
  intros Hnil Hin. destruct (truthy (b !! field)) eqn:E; [done |].
  assert (Hm : In field (Server2.missingFields b)) by by apply missingFields_In.
  rewrite Hnil in Hm. destruct Hm.
Qed.

Lemma schema_reports_email `{Host} env b f parsed :
  truthy (b !! "email") = true ->
  RegExp.test Server2.email_re (toString (b !! "email")) = false ->
  In (Mongoose.issue "customerInfo.email" "Please enter a valid email")
     (Server2.orderSchema (Server2.newOrder env b f parsed)).
Proof.
  intros [s [Hs Hne]]%truthy_Some Ht. rewrite Hs in Ht. simpl in Ht.
  unfold Server2.orderSchema, Server2.newOrder, customer.
  cbn [customerInfo name email phone address pincode city products totalAmount status].
  rewrite !in_app_iff. right. right. left.
  rewrite Hs. unfold Mongoose.match_. rewrite Hne, Ht. by left.
Qed.

Lemma schema_reports_phone `{Host} env b f parsed :
  truthy (b !! "phone") = true ->
  RegExp.test Server2.phone_re (toString (b !! "phone")) = false ->
  exists i, In i (Server2.orderSchema (Server2.newOrder env b f parsed))
            /\ at_path i = "customerInfo.phone".
Proof.
  intros [s [Hs Hne]]%truthy_Some Ht. rewrite Hs in Ht. simpl in Ht.
  exists (Mongoose.issue "customerInfo.phone" (s +:+ " is not a valid phone number!")).
  split; [| reflexivity].
  unfold Server2.orderSchema, Server2.newOrder, customer.
  cbn [customerInfo name email phone address pincode city products totalAmount status].
  rewrite !in_app_iff. do 4 right. left.
  rewrite Hs. unfold Mongoose.validate. rewrite Ht. by left.
Qed.

Lemma schema_reports_total `{Host} env b f parsed :
  number_ge (Number (toString (b !! "totalAmount"))) 0 = false ->
  exists i, In i (Server2.orderSchema (Server2.newOrder env b f parsed))
            /\ at_path i = "totalAmount".
Proof.
  intros Hn.
  assert (Hi : exists i,
             In i (Mongoose.number_path "totalAmount" (Some (0%Q, "Total must be positive"))
                     (Some (Number (toString (b !! "totalAmount")))))
             /\ at_path i = "totalAmount").
  { unfold Mongoose.number_path.
    destruct (isNaN _); [eexists; split; [by left | reflexivity] |].
    rewrite Hn. eexists; split; [by left | reflexivity]. }
  destruct Hi as [i [Hin Hp]]. exists i. split; [| exact Hp].
  unfold Server2.orderSchema, Server2.newOrder, customer.
  cbn [customerInfo name email phone address pincode city products totalAmount status].
  rewrite !in_app_iff. do 9 right. left. exact Hin.
Qed.

(** C5, as the handler of server.js, lines 307-374, has it: for a submission
    with its file, all required fields and parseable products, when the
    email fails [/.+\@.+\..+/], the phone fails [/^\d{10}$/] or the total is
    not a number at least 0, the save fails with one validation error that
    holds an entry for each of the three that is wrong; nothing is saved,
    the deletion of the stored file is issued, and the answer is 500
    "Failed to create order", which carries the error's message, naming each
    invalid path, only in development mode. *)
Theorem C5_server_collects_invalid_fields `{Host} env req w f parsed :
  file req = Some f ->
  Server2.missingFields (body req) = [] ->
  JSON_parse (toString (body req !! "products")) = inr parsed ->
  let bad_email := negb (RegExp.test Server2.email_re (toString (body req !! "email"))) in
  let bad_phone := negb (RegExp.test Server2.phone_re (toString (body req !! "phone"))) in
  let bad_total := negb (number_ge (Number (toString (body req !! "totalAmount"))) 0) in
  bad_email || bad_phone || bad_total = true ->
  exists issues,
    Server2.post_orders env req w
    = (Sent 500 (Failure "Failed to create order"
                   (Server2.diagnostic env (ValidationError issues))),
       snd (Server2.catch env req (ValidationError issues) w))
    /\ (bad_email = true -> exists i, In i issues /\ at_path i = "customerInfo.email")
    /\ (bad_phone = true -> exists i, In i issues /\ at_path i = "customerInfo.phone")
    /\ (bad_total = true -> exists i, In i issues /\ at_path i = "totalAmount")
    /\ orders (snd (Server2.post_orders env req w)) = orders w
    /\ (unlink_fault env = None ->
        path f ∉ files (snd (Server2.post_orders env req w)))
    /\ (NODE_ENV env = Some "development" ->
        forall i, In i issues ->
        exists text, Server2.diagnostic env (ValidationError issues) = Some text
                     /\ mentions text (at_path i) = true).
Proof.
  intros Hf Hm Hp bad_email bad_phone bad_total Hbad.
  set (o := Server2.newOrder env (body req) f parsed).
  assert (He : bad_email = true -> exists i, In i (Server2.orderSchema o)
                                             /\ at_path i = "customerInfo.email").
  { intros Hb%negb_true_iff.
    exists (Mongoose.issue "customerInfo.email" "Please enter a valid email").
    split; [| reflexivity].
    apply schema_reports_email; [| exact Hb].
    apply missingFields_nil; [exact Hm | simpl; tauto]. }
  assert (Hph : bad_phone = true -> exists i, In i (Server2.orderSchema o)
                                              /\ at_path i = "customerInfo.phone").
  { intros Hb%negb_true_iff. apply schema_reports_phone; [| exact Hb].
    apply missingFields_nil; [exact Hm | simpl; tauto]. }
  assert (Ht : bad_total = true -> exists i, In i (Server2.orderSchema o)
                                             /\ at_path i = "totalAmount").
  { intros Hb%negb_true_iff. by apply schema_reports_total. }
  assert (Hne : Server2.orderSchema o <> []).
  { intros Hnil. rewrite Hnil in He, Hph, Ht.
    apply orb_true_iff in Hbad as [[Hb | Hb]%orb_true_iff | Hb];
      [destruct (He Hb) as [? [[] _]] | destruct (Hph Hb) as [? [[] _]]
       | destruct (Ht Hb) as [? [[] _]]]. }
  exists (Server2.orderSchema o).
  rewrite (server2_invalid env req w f parsed Hf Hm Hp Hne). fold o.
  split; [reflexivity |]. do 3 (split; [assumption |]).
  split; [| split].
  - unfold Server2.catch. rewrite Hf. simpl. by destruct (unlink_fault env).
  - intros Hu. by apply server2_catch_deletes.
  - intros Hdev i Hin. eexists. split.
    + unfold Server2.diagnostic. rewrite Hdev. reflexivity.
    + by apply message_names_issue.
Qed.

Lemma C5_short_phone_witness :
  exists issues,
    fst (Server2.post_orders Sample.env
           {| body := Sample.short_phone; file := Some Sample.file_server |}
           (Sample.holding Sample.file_server))
    = Sent 500 (Failure "Failed to create order"
                  (Server2.diagnostic Sample.env (ValidationError issues)))
    /\ (exists i, In i issues /\ at_path i = "customerInfo.phone")
    /\ orders (snd (Server2.post_orders Sample.env
                      {| body := Sample.short_phone; file := Some Sample.file_server |}
                      (Sample.holding Sample.file_server))) = []
    /\ path Sample.file_server
       ∉ files (snd (Server2.post_orders Sample.env
                       {| body := Sample.short_phone; file := Some Sample.file_server |}
                       (Sample.holding Sample.file_server))).
Proof.
  destruct (C5_server_collects_invalid_fields Sample.env
              {| body := Sample.short_phone; file := Some Sample.file_server |}
              (Sample.holding Sample.file_server) Sample.file_server
              (JArr [Sample.widget]))
    as (issues & Heq & _ & Hphone & _ & Horders & Hfiles & _);
    [reflexivity | vm_compute; reflexivity | vm_compute; reflexivity
     | vm_compute; reflexivity |].
  exists issues. split; [by rewrite Heq |]. split; [by apply Hphone |].
  split; [exact Horders | by apply Hfiles].
Defined.

(** C5 fails on routes/orders.js with models/Order.js: a submission whose
    phone is "12345" is answered 201 and saved. *)
Lemma C5_router_saves_short_phone :
  RegExp.test Server2.phone_re "12345" = false
  /\ exists o,
       Routes.submit Sample.env Sample.short_phone (Some Sample.jpg) Sample.empty
       = (Sent 201 (Bare o),
          {| files := {["uploads/payments/" +:+ Sample.stored_name]};
             orders := [o]; console := [] |})
       /\ phone (customerInfo o) = Some "12345".
Proof.
  split; [reflexivity |].
  eexists. split; [vm_compute; reflexivity | reflexivity].
Qed.

(** ** C6 *)

Lemma store_then_remove (p : string) (w : World) :
  p ∉ files (remove_file p (Multer.store_file p w)).
Proof. simpl. apply not_elem_of_difference. right. by apply elem_of_singleton. Qed.

(** C6, as the programs have it: the upload of server.js, whose limit is
    5 * 1024 * 1024 bytes, fails for every file of an allowed type that
    has that many bytes or more, the name it was being written under is not
    left in storage and no order is saved (lines 179-454 answer 400, lines
    1-179 answer 500); a smaller file is stored and handed to the
    handler. *)
Theorem C6_server_size_limit `{Host} env fields part w :
  In (Multer.part_mimetype (Multer.received part)) Server2.allowedTypes ->
  (5 * 1024 * 1024 <= Multer.part_size part ->
   (exists msg,
      fst (Server2.submit env fields (Some part) w) = Sent 400 (Failure msg None))
   /\ (path (Multer.stored Server2.upload env (Multer.received part))
       ∉ files (snd (Server2.submit env fields (Some part) w)))
   /\ orders (snd (Server2.submit env fields (Some part) w)) = orders w
   /\ fst (Server1.submit env fields (Some part) w)
      = Sent 500 (Failure "Something went wrong!" None)
   /\ (path (Multer.stored Server1.upload env (Multer.received part))
       ∉ files (snd (Server1.submit env fields (Some part) w)))
   /\ orders (snd (Server1.submit env fields (Some part) w)) = orders w)
  /\ (Multer.part_size part < 5 * 1024 * 1024 ->
      Server2.submit env fields (Some part) w
      = Server2.post_orders env
          {| body := fields;
             file := Some (Multer.stored Server2.upload env (Multer.received part)) |}
          (Multer.store_file
             (path (Multer.stored Server2.upload env (Multer.received part))) w)
      /\ Server1.submit env fields (Some part) w
         = Server1.post_orders env
             {| body := fields;
                file := Some (Multer.stored Server1.upload env (Multer.received part)) |}
             (Multer.store_file
                (path (Multer.stored Server1.upload env (Multer.received part))) w)).
Proof.
  intros Hin%includes_In.
  unfold Server2.submit, Server1.submit, Multer.single.
  change (Multer.fileFilter Server2.upload) with Server2.fileFilter.
  change (Multer.fileFilter Server1.upload) with Server1.fileFilter.
  unfold Server2.fileFilter, Server1.fileFilter.
  change Server1.allowedTypes with Server2.allowedTypes. rewrite Hin.
  change (Multer.too_large Server2.upload (Multer.received part))
    with (5 * 1024 * 1024 <=? Multer.part_size part).
  change (Multer.too_large Server1.upload (Multer.received part))
    with (5 * 1024 * 1024 <=? Multer.part_size part).
  split.
  - intros Hbig. apply Z.leb_le in Hbig. rewrite Hbig.
    repeat split; try (eexists; reflexivity); apply store_then_remove.
  - intros Hsmall. apply Z.leb_gt in Hsmall. rewrite Hsmall. done.
Qed.

Lemma C6_witness :
  ((exists msg,
      fst (Server2.submit Sample.env Sample.fields (Some Sample.large_jpg) Sample.empty)
      = Sent 400 (Failure msg None))
   /\ ("uploads/" +:+ Sample.stored_name
       ∉ files (snd (Server2.submit Sample.env Sample.fields (Some Sample.large_jpg)
                       Sample.empty)))
   /\ orders (snd (Server2.submit Sample.env Sample.fields (Some Sample.large_jpg)
                     Sample.empty)) = [])
  /\ Server2.submit Sample.env Sample.fields (Some Sample.jpg) Sample.empty
     = Server2.post_orders Sample.env
         {| body := Sample.fields; file := Some Sample.file_server |}
         (Sample.holding Sample.file_server).
Proof.
  split.
  - destruct (C6_server_size_limit Sample.env Sample.fields Sample.large_jpg
                Sample.empty) as [Hbig _]; [vm_compute; tauto |].
    destruct Hbig as (Ha & Hb & Hc & _); [discriminate |].
    split; [exact Ha |]. split; [exact Hb | exact Hc].
  - destruct (C6_server_size_limit Sample.env Sample.fields Sample.jpg
                Sample.empty) as [_ Hsmall]; [vm_compute; tauto |].
    destruct Hsmall as [Ha _]; [reflexivity |].
    rewrite Ha. vm_compute. reflexivity.
Defined.

(** C6 fails on server.js at the limit itself: a file of just 5 MiB, which
    does not exceed the limit, is refused with 400 "File too large" and no
    order is saved. *)
Example server2_refuses_file_of_just_the_limit :
  Multer.part_size Sample.full_jpg = 5 * 1024 * 1024
  /\ fst (Server2.submit Sample.env Sample.fields (Some Sample.full_jpg) Sample.empty)
     = Sent 400 (Failure "File too large" None)
  /\ orders (snd (Server2.submit Sample.env Sample.fields (Some Sample.full_jpg)
                    Sample.empty)) = [].
Proof. split; [reflexivity |]. split; reflexivity. Qed.

(** C6 fails on routes/orders.js, whose upload has no limit: a file of
    5 MiB and one byte is stored and the order saved with it. *)
Lemma C6_router_accepts_large_file :
  5 * 1024 * 1024 < Multer.part_size Sample.large_jpg
  /\ exists o,
       Routes.submit Sample.env Sample.fields (Some Sample.large_jpg) Sample.empty
       = (Sent 201 (Bare o),
          {| files := {["uploads/payments/" +:+ Sample.stored_name]};
             orders := [o]; console := [] |}).
Proof. split; [reflexivity |]. eexists. vm_compute. reflexivity. Qed.

(** ** C7 *)

Section Listing.

Variable key : Order -> option Z.

Lemma key_le_total (a b : option Z) :
  Mongoose.key_le a b = false -> Mongoose.key_le b a = true.
Proof.
  destruct a as [x|], b as [y|]; simpl; try done.
  intros Hle%Z.leb_gt. apply Z.leb_le. lia.
Qed.

Lemma key_le_trans (a b c : option Z) :
  Mongoose.key_le a b = true -> Mongoose.key_le b c = true ->
  Mongoose.key_le a c = true.
Proof.
  destruct a as [x|], b as [y|], c as [z|]; simpl; try done.
  intros H1%Z.leb_le H2%Z.leb_le. apply Z.leb_le. lia.
Qed.

Lemma insert_desc_perm (o : Order) (l : list Order) :
  Permutation (o :: l) (Mongoose.insert_desc key o l).
Proof.
  induction l as [|y rest IH]; simpl; [done |].
  destruct (Mongoose.key_le (key y) (key o)); [done |].
  rewrite perm_swap. by constructor.
Qed.

Lemma find_sort_desc_perm (l : list Order) :
  Permutation l (Mongoose.find_sort_desc key l).
Proof.
  induction l as [|o rest IH]; simpl; [done |].
  rewrite <- insert_desc_perm. by constructor.
Qed.

Lemma insert_desc_sorted (o : Order) (l : list Order) :
  Sorted (descends key) l -> Sorted (descends key) (Mongoose.insert_desc key o l).
Proof.
  induction l as [|y rest IH]; simpl; intros Hs.
  - repeat constructor.
  - destruct (Mongoose.key_le (key y) (key o)) eqn:E.
    + constructor; [exact Hs | by constructor].
    + inversion Hs as [|? ? Hrest Hhd]; subst.
      constructor; [by apply IH |].
      destruct rest as [|z rest']; simpl.
      * constructor. by apply key_le_total.
      * destruct (Mongoose.key_le (key z) (key o)).
        -- constructor. by apply key_le_total.
        -- inversion Hhd; subst. by constructor.
Qed.

Lemma find_sort_desc_sorted (l : list Order) :
  StronglySorted (descends key) (Mongoose.find_sort_desc key l).
Proof.
  apply Sorted_StronglySorted.
  - intros a b c Hab Hbc. unfold descends in *. by apply key_le_trans with (key b).
  - induction l as [|o rest IH]; simpl; [constructor | by apply insert_desc_sorted].
Qed.

(** The six orders in which three documents can lie in the collection. *)
Lemma three_in_any_order (a b c : Order) (l : list Order) :
  Permutation [a; b; c] l ->
  l = [a; b; c] \/ l = [a; c; b] \/ l = [b; a; c]
  \/ l = [b; c; a] \/ l = [c; a; b] \/ l = [c; b; a].
Proof.
  intros Hp.
  assert (Hin : In a l) by (apply (Permutation_in _ Hp); by left).
  apply in_split in Hin as (l1 & l2 & ->).
  apply Permutation_cons_app_inv in Hp.
  apply Permutation_length_2_inv in Hp as [Hl | Hl];
    destruct l1 as [|x [|y [|z l1]]]; simpl in Hl; simplify_eq; simpl; tauto.
Qed.

Lemma three_listed (o1 o2 o3 : Order) (t1 t2 t3 : Z) (l : list Order) :
  key o1 = Some t1 -> key o2 = Some t2 -> key o3 = Some t3 ->
  t1 < t2 -> t2 < t3 ->
  Permutation [o1; o2; o3] l ->
  Mongoose.find_sort_desc key l = [o3; o2; o1].
Proof.
  intros H1 H2 H3 Hlt12 Hlt23 Hp.
  assert (E12 : (t1 <=? t2) = true) by (apply Z.leb_le; lia).
  assert (E13 : (t1 <=? t3) = true) by (apply Z.leb_le; lia).
  assert (E23 : (t2 <=? t3) = true) by (apply Z.leb_le; lia).
  assert (E21 : (t2 <=? t1) = false) by (apply Z.leb_gt; lia).
  assert (E31 : (t3 <=? t1) = false) by (apply Z.leb_gt; lia).
  assert (E32 : (t3 <=? t2) = false) by (apply Z.leb_gt; lia).
  destruct (three_in_any_order _ _ _ _ Hp) as [-> | [-> | [-> | [-> | [-> | ->]]]]];
    simpl; rewrite ?H1, ?H2, ?H3; simpl;
    rewrite ?E12, ?E13, ?E23, ?E21, ?E31, ?E32; simpl;
    rewrite ?H1, ?H2, ?H3; simpl;
    rewrite ?E12, ?E13, ?E23, ?E21, ?E31, ?E32; reflexivity.
Qed.

End Listing.

(** C7, as the programs have it. While the store answers, the listing of
    routes/orders.js, and of server.js lines 377-384, is the whole
    collection in descending order of [orderDate]; three orders dated
    T1 < T2 < T3, in whatever order they lie in the collection, are listed
    as T3, T2, T1; and an empty collection is answered with the empty list.
    The listing of server.js, lines 137-144, is the same with [createdAt],
    the time of saving, in the place of [orderDate]. *)
Theorem C7_listings_descend_on_their_sort_key `{Host} env w :
  find_fault env = None ->
  (exists listed,
     Routes.get env w = (Sent 200 (BareList listed), w)
     /\ Server2.get_orders env w = (Sent 200 (Listing listed), w)
     /\ Permutation (orders w) listed
     /\ StronglySorted (descends orderDate) listed
     /\ (orders w = [] -> listed = [])
     /\ (forall o1 o2 o3 t1 t2 t3,
           orderDate o1 = Some t1 -> orderDate o2 = Some t2 ->
           orderDate o3 = Some t3 ->
           t1 < t2 -> t2 < t3 ->
           Permutation [o1; o2; o3] (orders w) ->
           listed = [o3; o2; o1]))
  /\ (exists listed,
        Server1.get_orders env w = (Sent 200 (Listing listed), w)
        /\ Permutation (orders w) listed
        /\ StronglySorted (descends createdAt) listed
        /\ (orders w = [] -> listed = [])
        /\ (forall o1 o2 o3 t1 t2 t3,
              createdAt o1 = Some t1 -> createdAt o2 = Some t2 ->
              createdAt o3 = Some t3 ->
              t1 < t2 -> t2 < t3 ->
              Permutation [o1; o2; o3] (orders w) ->
              listed = [o3; o2; o1])).
Proof.
  intros Hf. split.
  - exists (Mongoose.find_sort_desc orderDate (orders w)).
    unfold Routes.get, Server2.get_orders, Mongoose.find. rewrite Hf.
    do 2 (split; [reflexivity |]).
    split; [apply find_sort_desc_perm |].
    split; [apply find_sort_desc_sorted |].
    split; [by intros -> |].
    intros o1 o2 o3 t1 t2 t3. apply three_listed.
  - exists (Mongoose.find_sort_desc createdAt (orders w)).
    unfold Server1.get_orders, Mongoose.find. rewrite Hf.
    split; [reflexivity |].
    split; [apply find_sort_desc_perm |].
    split; [apply find_sort_desc_sorted |].
    split; [by intros -> |].
    intros o1 o2 o3 t1 t2 t3. apply three_listed.
Qed.

Lemma C7_witness :
  Routes.get Sample.env Sample.three_orders
  = (Sent 200 (BareList [Sample.order_at 30; Sample.order_at 20; Sample.order_at 10]),
     Sample.three_orders)
  /\ Routes.get Sample.env Sample.empty = (Sent 200 (BareList []), Sample.empty)
  /\ Server1.get_orders Sample.env Sample.three_orders
     = (Sent 200 (Listing [Sample.order_at 30; Sample.order_at 20; Sample.order_at 10]),
        Sample.three_orders)
  /\ Server1.get_orders Sample.env Sample.empty = (Sent 200 (Listing []), Sample.empty).
Proof.
  destruct (C7_listings_descend_on_their_sort_key Sample.env Sample.three_orders)
    as [(listed & Hget & _ & _ & _ & _ & Hthree)
        (listed1 & Hget1 & _ & _ & _ & Hthree1)]; [reflexivity |].
  destruct (C7_listings_descend_on_their_sort_key Sample.env Sample.empty)
    as [(none & Hnone & _ & _ & _ & Hempty & _)
        (none1 & Hnone1 & _ & _ & Hempty1 & _)]; [reflexivity |].
  split; [| split; [| split]].
  - rewrite Hget.
    by rewrite (Hthree (Sample.order_at 10) (Sample.order_at 20) (Sample.order_at 30)
                  10 20 30).
  - rewrite Hnone. by rewrite Hempty.
  - rewrite Hget1.
    by rewrite (Hthree1 (Sample.order_at 10) (Sample.order_at 20) (Sample.order_at 30)
                  10 20 30).
  - rewrite Hnone1. by rewrite Hempty1.
Defined.

(** C7 fails on server.js, lines 137-144, whose listing sorts on
    [createdAt]: three orders dated 10, 20, 30 that routes/orders.js
    saved, which have no [createdAt], are listed as they lie in the
    collection, the oldest first; and orders whose [createdAt] runs
    against their [orderDate] are listed by [createdAt]. *)
Lemma C7_server1_lists_on_createdAt :
  map orderDate (orders Sample.three_routed_orders) = [Some 10; Some 20; Some 30]
  /\ (exists listed,
        Server1.get_orders Sample.env Sample.three_routed_orders
        = (Sent 200 (Listing listed), Sample.three_routed_orders)
        /\ map orderDate listed = [Some 10; Some 20; Some 30])
  /\ (exists listed,
        Server1.get_orders Sample.env Sample.three_crossed_orders
        = (Sent 200 (Listing listed), Sample.three_crossed_orders)
        /\ map orderDate listed = [Some 10; Some 20; Some 30]).
Proof.
  split; [reflexivity |].
  split; eexists; (split; [vm_compute; reflexivity | reflexivity]).
Qed.

(** ** What a submission adds to the collection *)

Lemma append_nonempty (p x : string) : p <> "" -> p +:+ x <> "".
Proof. destruct p as [|c p]; [done |]. intros _. by rewrite append_cons. Qed.

Lemma stamp_fresh timestamps env o :
  fresh_order o -> fresh_order (Mongoose.stamp timestamps env o).
Proof. by destruct timestamps. Qed.

Lemma stamp_products timestamps env o :
  products (Mongoose.stamp timestamps env o) = products o.
Proof. by destruct timestamps. Qed.

Lemma save_adds issues timestamps env o w saved w' :
  Mongoose.save issues timestamps env o w = inr (saved, w') ->
  saved = Mongoose.stamp timestamps env o
  /\ orders w' = (orders w ++ [saved])%list /\ files w' = files w.
Proof.
  unfold Mongoose.save. destruct (issues o); [| discriminate].
  destruct (save_fault env); [discriminate |]. intros [= <- <-]. done.
Qed.

Lemma server1_catch_orders `{Host} env req error w :
  orders (snd (Server1.catch env req error w)) = orders w.
Proof.
  unfold Server1.catch. destruct (file req); [| done].
  by destruct (unlink_fault env).
Qed.

Lemma server2_catch_orders `{Host} env req error w :
  orders (snd (Server2.catch env req error w)) = orders w.
Proof.
  unfold Server2.catch. destruct (file req); [| done].
  by destruct (unlink_fault env).
Qed.

Lemma server1_post_adds `{Host} env req w :
  orders (snd (Server1.post_orders env req w)) = orders w
  \/ exists o, persisted w (snd (Server1.post_orders env req w)) o /\ fresh_order o.
Proof.
  unfold Server1.post_orders, Server1.try_post.
  destruct (file req) as [f|] eqn:Hf; [| by left].
  destruct (Server1.incomplete (body req)); [by left |].
  destruct (parse (body req !! "products")) as [e | parsed]; simpl.
  { left. apply server1_catch_orders. }
  destruct (Mongoose.save _ _ _ _ _) as [e | [saved w']] eqn:Hs; simpl.
  { left. apply server1_catch_orders. }
  apply save_adds in Hs as (-> & Ho & _). right. eexists. split; [exact Ho |].
  apply stamp_fresh. split; [reflexivity |]. eexists. split; [reflexivity |].
  by apply append_nonempty.
Qed.

Lemma server2_post_adds `{Host} env req w :
  orders (snd (Server2.post_orders env req w)) = orders w
  \/ exists o, persisted w (snd (Server2.post_orders env req w)) o /\ fresh_order o.
Proof.
  unfold Server2.post_orders, Server2.try_post.
  destruct (file req) as [f|] eqn:Hf; [| by left].
  destruct (0 <? length (Server2.missingFields (body req)))%nat; [by left |].
  destruct (parse (body req !! "products")) as [e | parsed]; simpl; [by left |].
  destruct (Mongoose.save _ _ _ _ _) as [e | [saved w']] eqn:Hs; simpl.
  { left. apply server2_catch_orders. }
  apply save_adds in Hs as (-> & Ho & _). right. eexists. split; [exact Ho |].
  apply stamp_fresh. split; [reflexivity |]. eexists. split; [reflexivity |].
  by apply append_nonempty.
Qed.

Lemma cart_not_empty `{Host} b parsed :
  Routes.cart_empty b = inr false ->
  parse (b !! "products") = inr parsed ->
  Mongoose.document_array parsed <> [].
Proof.
  unfold Routes.cart_empty. destruct (truthy (b !! "products")); [| discriminate].
  simpl. intros Hc Hp. rewrite Hp in Hc. simpl in Hc.
  destruct parsed as [| | | | items |]; try done.
  destruct items; [vm_compute in Hc; discriminate Hc | done].
Qed.

Lemma router_post_adds `{Host} env req w :
  orders (snd (Routes.post env req w)) = orders w
  \/ exists o, persisted w (snd (Routes.post env req w)) o
               /\ status o = "pending"
               /\ paymentScreenshot o = (path <$> file req)
               /\ has_products o.
Proof.
  unfold Routes.post, Routes.try_post.
  destruct (Routes.cart_empty (body req)) as [e | [|]] eqn:Hc; simpl;
    [by left | by left |].
  destruct (file req) as [f|] eqn:Hf; [| by left].
  destruct (negb _ || negb _); [by left |].
  destruct (parse (body req !! "products")) as [e | parsed] eqn:Hp; simpl;
    [by left |].
  destruct (Mongoose.save _ _ _ _ _) as [e | [saved w']] eqn:Hs; simpl;
    [by left |].
  apply save_adds in Hs as (-> & Ho & _). right. eexists. split; [exact Ho |].
  repeat split. unfold has_products. rewrite stamp_products. simpl.
  by apply cart_not_empty with (body req).
Qed.

Lemma single_orders `{Host} o field env part w :
  orders (snd (Multer.single o field env part w)) = orders w.
Proof.
  unfold Multer.single. destruct part as [p|]; [| done].
  destruct (Multer.fileFilter o _); [done |].
  by destruct (Multer.too_large o _).
Qed.

Lemma single_path `{Host} o field env part w f w' :
  Multer.single o field env part w = (inr (Some f), w') ->
  exists name, path f = Multer.destination o +:+ name.
Proof.
  unfold Multer.single. destruct part as [p|]; [| discriminate].
  destruct (Multer.fileFilter o _); [discriminate |].
  destruct (Multer.too_large o _); [discriminate |].
  intros [= <- _]. eexists. reflexivity.
Qed.

Lemma persisted_after (w0 w w' : World) (o : Order) :
  orders w = orders w0 -> persisted w w' o -> persisted w0 w' o.
Proof. unfold persisted. by intros ->. Qed.

Lemma server1_submit_adds `{Host} env fields part w :
  orders (snd (Server1.submit env fields part w)) = orders w
  \/ exists o, persisted w (snd (Server1.submit env fields part w)) o /\ fresh_order o.
Proof.
  unfold Server1.submit.
  pose proof (single_orders Server1.upload "paymentScreenshot" env part w) as Hs.
  destruct (Multer.single _ _ _ _ _) as [[err | f] w1]; simpl in Hs; [by left |].
  destruct (server1_post_adds env {| body := fields; file := f |} w1)
    as [Hsame | [o [Hp Hfresh]]].
  - left. by rewrite Hsame.
  - right. exists o. split; [by apply persisted_after with w1 | done].
Qed.

Lemma server2_submit_adds `{Host} env fields part w :
  orders (snd (Server2.submit env fields part w)) = orders w
  \/ exists o, persisted w (snd (Server2.submit env fields part w)) o /\ fresh_order o.
Proof.
  unfold Server2.submit.
  pose proof (single_orders Server2.upload "paymentScreenshot" env part w) as Hs.
  destruct (Multer.single _ _ _ _ _) as [[err | f] w1]; simpl in Hs.
  - left. unfold Server2.error_handler. by destruct err.
  - destruct (server2_post_adds env {| body := fields; file := f |} w1)
      as [Hsame | [o [Hp Hfresh]]].
    + left. by rewrite Hsame.
    + right. exists o. split; [by apply persisted_after with w1 | done].
Qed.

Lemma router_submit_adds `{Host} env fields part w :
  orders (snd (Routes.submit env fields part w)) = orders w
  \/ exists o, persisted w (snd (Routes.submit env fields part w)) o
               /\ fresh_order o /\ has_products o.
Proof.
  unfold Routes.submit.
  pose proof (single_orders Routes.upload "paymentScreenshot" env part w) as Hs.
  destruct (Multer.single _ _ _ _ _) as [[err | f] w1] eqn:Hsingle; simpl in Hs;
    [by left |].
  destruct (router_post_adds env {| body := fields; file := f |} w1)
    as [Hsame | (o & Hp & Hst & Hshot & Hprod)].
  - left. by rewrite Hsame.
  - right. exists o. split; [by apply persisted_after with w1 |].
    split; [| exact Hprod]. split; [exact Hst |].
    simpl in Hshot. destruct f as [f|].
    + apply single_path in Hsingle as [name Hname]. exists (path f).
      split; [exact Hshot |]. rewrite Hname. by apply append_nonempty.
    + unfold Routes.post, Routes.try_post in Hp. simpl in Hp.
      unfold persisted in Hp.
      destruct (Routes.cart_empty fields) as [e | [|]]; simpl in Hp;
        rewrite Hs in Hp; apply (f_equal length) in Hp;
        rewrite length_app in Hp; simpl in Hp; lia.
Qed.

Lemma router2_post_adds `{Host} env req w :
  orders (snd (Routes2.post env req w)) = orders w
  \/ exists o, persisted w (snd (Routes2.post env req w)) o
               /\ status o = "pending"
               /\ paymentScreenshot o = (path <$> file req)
               /\ has_products o.
Proof.
  unfold Routes2.post, Routes2.try_post.
  destruct (negb (truthy (body req !! "products"))); [by left |].
  destruct (parse (body req !! "products")) as [e | parsed]; simpl; [by left |].
  destruct (Routes2.no_lines parsed) eqn:Hn; [by left |].
  destruct (file req) as [f|] eqn:Hf; [| by left].
  destruct (negb _ || negb _); [by left |].
  destruct (Mongoose.save _ _ _ _ _) as [e | [saved w']] eqn:Hs; simpl;
    [by left |].
  apply save_adds in Hs as (-> & Ho & _). right. eexists. split; [exact Ho |].
  repeat split. unfold has_products. rewrite stamp_products. simpl.
  destruct parsed as [| | | | items |]; try discriminate Hn.
  destruct items; [discriminate Hn | done].
Qed.

Lemma router2_submit_adds `{Host} env fields part w :
  orders (snd (Routes2.submit env fields part w)) = orders w
  \/ exists o, persisted w (snd (Routes2.submit env fields part w)) o
               /\ fresh_order o /\ has_products o.
Proof.
  unfold Routes2.submit.
  pose proof (single_orders Routes2.upload "paymentScreenshot" env part w) as Hs.
  destruct (Multer.single _ _ _ _ _) as [[err | f] w1] eqn:Hsingle; simpl in Hs;
    [by left |].
  destruct (router2_post_adds env {| body := fields; file := f |} w1)
    as [Hsame | (o & Hp & Hst & Hshot & Hprod)].
  - left. by rewrite Hsame.
  - right. exists o. split; [by apply persisted_after with w1 |].
    split; [| exact Hprod]. split; [exact Hst |].
    simpl in Hshot. destruct f as [f|].
    + apply single_path in Hsingle as [name Hname]. exists (path f).
      split; [exact Hshot |]. rewrite Hname. by apply append_nonempty.
    + unfold Routes2.post, Routes2.try_post in Hp. simpl in Hp.
      unfold persisted in Hp.
      destruct (negb (truthy (fields !! "products"))); simpl in Hp;
        [| destruct (parse (fields !! "products")) as [e | parsed]; simpl in Hp;
           [| destruct (Routes2.no_lines parsed); simpl in Hp]];
        rewrite Hs in Hp; apply (f_equal length) in Hp;
        rewrite length_app in Hp; simpl in Hp; lia.
Qed.

(** ** C8 *)

Lemma reachable_all (serve : Call -> World -> Outcome * World) (P : Order -> Prop) :
  (forall c w, orders (snd (serve c w)) = orders w
               \/ exists o, persisted w (snd (serve c w)) o /\ P o) ->
  forall w, reachable serve w -> Forall P (orders w).
Proof.
  intros Hstep w Hr. induction Hr as [w Hw | c w Hr IH].
  - rewrite Hw. constructor.
  - destruct (Hstep c w) as [-> | [o [-> Ho]]]; [exact IH |].
    apply Forall_app. split; [exact IH | by constructor].
Qed.

(** C8, as the programs have it: in every state reached from an empty
    collection, each saved order has a non-empty reference to its stored
    file, with every program; each order saved through the router
    (routes/orders.js, unnamed/part_000) also has at least one product
    line. *)
Theorem C8_saved_orders_hold_screenshot `{Host} :
  (forall w, reachable server1 w -> Forall has_screenshot (orders w))
  /\ (forall w, reachable server2 w -> Forall has_screenshot (orders w))
  /\ (forall w, reachable router w ->
        Forall (fun o => has_screenshot o /\ has_products o) (orders w))
  /\ (forall w, reachable router2 w ->
        Forall (fun o => has_screenshot o /\ has_products o) (orders w)).
Proof.
  split; [| split; [| split]]; apply reachable_all;
    intros [env fields part | env] w; simpl.
  - destruct (server1_submit_adds env fields part w) as [? | [o [? [_ ?]]]]; eauto.
  - left. unfold Server1.get_orders. by destruct (Mongoose.find _ _ _).
  - destruct (server2_submit_adds env fields part w) as [? | [o [? [_ ?]]]]; eauto.
  - left. unfold Server2.get_orders. by destruct (Mongoose.find _ _ _).
  - destruct (router_submit_adds env fields part w) as [? | [o [? [[_ ?] ?]]]]; eauto.
  - left. unfold Routes.get. by destruct (Mongoose.find _ _ _).
  - destruct (router2_submit_adds env fields part w) as [? | [o [? [[_ ?] ?]]]]; eauto.
  - left. unfold Routes.get. by destruct (Mongoose.find _ _ _).
Qed.

Lemma C8_witness :
  exists o,
    orders (snd (router (POST Sample.env Sample.fields (Some Sample.jpg)) Sample.empty))
    = [o]
    /\ has_screenshot o /\ has_products o.
Proof.
  assert (Hr : reachable router
                 (snd (router (POST Sample.env Sample.fields (Some Sample.jpg))
                         Sample.empty))).
  { apply reach_call, reach_start. reflexivity. }
  pose proof (proj1 (proj2 (proj2 C8_saved_orders_hold_screenshot)) _ Hr) as Hall.
  eexists. split; [vm_compute; reflexivity |].
  by apply Forall_inv in Hall.
Defined.

(** C8 fails on server.js: the submission with an empty product list is
    saved, so a state is reached whose collection holds an order without
    product lines. *)
Lemma C8_server_reaches_empty_products :
  exists w o,
    reachable server2 w /\ In o (orders w) /\ products o = [].
Proof.
  exists (snd (server2 (POST Sample.env Sample.empty_cart (Some Sample.jpg))
                 Sample.empty)).
  eexists. split; [apply reach_call, reach_start; reflexivity |].
  split; [vm_compute; left; reflexivity | reflexivity].
Qed.

(** ** C10 *)

Lemma customer_same b b' : same_but_status b b' -> customer b = customer b'.
Proof. intros Hs. unfold customer. by rewrite !Hs. Qed.

Lemma missingFields_same b b' :
  same_but_status b b' -> Server2.missingFields b = Server2.missingFields b'.
Proof. intros Hs. unfold Server2.missingFields. simpl. by rewrite !Hs. Qed.

Lemma incomplete_same b b' :
  same_but_status b b' -> Server1.incomplete b = Server1.incomplete b'.
Proof. intros Hs. unfold Server1.incomplete. by rewrite !Hs. Qed.

Lemma server1_post_same `{Host} env b b' f w :
  same_but_status b b' ->
  Server1.post_orders env {| body := b; file := f |} w
  = Server1.post_orders env {| body := b'; file := f |} w.
Proof.
  intros Hs. unfold Server1.post_orders, Server1.try_post, Server1.newOrder,
    Server1.catch. simpl.
  by rewrite (incomplete_same b b' Hs), (customer_same b b' Hs),
    (Hs "products"), (Hs "totalAmount").
Qed.

Lemma server2_post_same `{Host} env b b' f w :
  same_but_status b b' ->
  Server2.post_orders env {| body := b; file := f |} w
  = Server2.post_orders env {| body := b'; file := f |} w.
Proof.
  intros Hs. unfold Server2.post_orders, Server2.try_post, Server2.newOrder,
    Server2.catch. simpl.
  by rewrite (missingFields_same b b' Hs), (customer_same b b' Hs),
    (Hs "products"), (Hs "totalAmount").
Qed.

Lemma router_post_same `{Host} env b b' f w :
  same_but_status b b' ->
  Routes.post env {| body := b; file := f |} w
  = Routes.post env {| body := b'; file := f |} w.
Proof.
  intros Hs. unfold Routes.post, Routes.try_post, Routes.cart_empty,
    Routes.newOrder. simpl.
  by rewrite (customer_same b b' Hs), (Hs "products"), (Hs "totalAmount"),
    (Hs "email"), (Hs "address").
Qed.

Lemma router2_post_same `{Host} env b b' f w :
  same_but_status b b' ->
  Routes2.post env {| body := b; file := f |} w
  = Routes2.post env {| body := b'; file := f |} w.
Proof.
  intros Hs. unfold Routes2.post, Routes2.try_post, Routes2.newOrder. simpl.
  by rewrite (customer_same b b' Hs), (Hs "products"), (Hs "totalAmount"),
    (Hs "email"), (Hs "address").
Qed.

Lemma persisted_fresh (w w' : World) (o : Order) (P : Order -> Prop) :
  (orders w' = orders w \/ exists o', persisted w w' o' /\ P o') ->
  persisted w w' o -> P o.
Proof.
  unfold persisted. intros [Hsame | [o' [Ho' HP]]] Ho.
  - rewrite Hsame in Ho. apply (f_equal length) in Ho.
    rewrite length_app in Ho. simpl in Ho. lia.
  - rewrite Ho' in Ho. apply app_inj_tail in Ho as [_ ->]. exact HP.
Qed.

(** C10: with each program, a submission answers and changes the world in
    the same way whatever [status] field its body carries, and every order
    it saves has the status "pending". *)
Theorem C10_status_is_pending `{Host} env fields fields' part w :
  same_but_status fields fields' ->
  Server1.submit env fields part w = Server1.submit env fields' part w
  /\ Server2.submit env fields part w = Server2.submit env fields' part w
  /\ Routes.submit env fields part w = Routes.submit env fields' part w
  /\ Routes2.submit env fields part w = Routes2.submit env fields' part w
  /\ (forall o, persisted w (snd (Server1.submit env fields part w)) o ->
                status o = "pending")
  /\ (forall o, persisted w (snd (Server2.submit env fields part w)) o ->
                status o = "pending")
  /\ (forall o, persisted w (snd (Routes.submit env fields part w)) o ->
                status o = "pending")
  /\ (forall o, persisted w (snd (Routes2.submit env fields part w)) o ->
                status o = "pending").
Proof.
  intros Hs. repeat split.
  - unfold Server1.submit. destruct (Multer.single _ _ _ _ _) as [[err | f] w1];
      [done | by apply server1_post_same].
  - unfold Server2.submit. destruct (Multer.single _ _ _ _ _) as [[err | f] w1];
      [done | by apply server2_post_same].
  - unfold Routes.submit. destruct (Multer.single _ _ _ _ _) as [[err | f] w1];
      [done | by apply router_post_same].
  - unfold Routes2.submit. destruct (Multer.single _ _ _ _ _) as [[err | f] w1];
      [done | by apply router2_post_same].
  - intros o Ho.
    apply (persisted_fresh _ _ o fresh_order (server1_submit_adds env fields part w) Ho).
  - intros o Ho.
    apply (persisted_fresh _ _ o fresh_order (server2_submit_adds env fields part w) Ho).
  - intros o Ho.
    apply (persisted_fresh w (snd (Routes.submit env fields part w)) o fresh_order);
      [| exact Ho].
    destruct (router_submit_adds env fields part w) as [Hsame | (o' & Ho' & Hf & _)];
      [by left | right; eauto].
  - intros o Ho.
    apply (persisted_fresh w (snd (Routes2.submit env fields part w)) o fresh_order);
      [| exact Ho].
    destruct (router2_submit_adds env fields part w) as [Hsame | (o' & Ho' & Hf & _)];
      [by left | right; eauto].
Qed.

Lemma C10_witness :
  Server2.submit Sample.env Sample.fields (Some Sample.jpg) Sample.empty
  = Server2.submit Sample.env (<["status" := "delivered"]> Sample.fields)
      (Some Sample.jpg) Sample.empty
  /\ exists o,
       persisted Sample.empty
         (snd (Server2.submit Sample.env (<["status" := "delivered"]> Sample.fields)
                 (Some Sample.jpg) Sample.empty)) o
       /\ status o = "pending".
Proof.
  assert (Hs : same_but_status (<["status" := "delivered"]> Sample.fields) Sample.fields).
  { intros k Hk. by apply lookup_insert_ne. }
  destruct (C10_status_is_pending Sample.env (<["status" := "delivered"]> Sample.fields)
              Sample.fields (Some Sample.jpg) Sample.empty Hs)
    as (_ & Heq & _ & _ & _ & Hst & _).
  split; [by rewrite Heq |].
  eexists. split; [vm_compute; reflexivity |].
  apply Hst. vm_compute. reflexivity.
Defined.

(** * Further properties *)

(** ** Start-up *)

Lemma three_cases (n : nat) : (n < 3)%nat -> n = 0%nat \/ n = 1%nat \/ n = 2%nat.
Proof. lia. Qed.

(** [connectDB] of server.js, lines 220-245, always ends, after at most three
    calls of [mongoose.connect]: when the first call that succeeds is call
    [n] of the first three, it returns after [n + 1] calls and [n] waits of
    5000 ms; when the first three calls fail, it throws the error of the
    third after two waits, with no wait after the last failure. *)
Theorem connectDB_retries_at_most_three_times attempt fuel :
  (Startup2.maxRetries <= fuel)%nat ->
  exists result trace,
    Startup2.connectDB attempt fuel = Some (result, trace)
    /\ (connects trace <= 3)%nat
    /\ (forall n, (n < 3)%nat -> first_success attempt n ->
          result = inr tt /\ connects trace = S n /\ waits trace = repeat 5000 n)
    /\ ((forall k, (k < 3)%nat -> attempt k <> None) ->
          exists m, attempt 2%nat = Some m /\ result = inl m
                    /\ connects trace = 3%nat /\ waits trace = [5000; 5000]).
Proof.
  intros Hfuel. unfold Startup2.maxRetries in Hfuel.
  destruct fuel as [|[|[|fuel]]]; try lia.
  unfold Startup2.connectDB. simpl.
  destruct (attempt 0%nat) as [m0|] eqn:E0;
    [destruct (attempt 1%nat) as [m1|] eqn:E1;
      [destruct (attempt 2%nat) as [m2|] eqn:E2 |] |];
    simpl; eexists _, _; (split; [reflexivity |]);
    (split; [vm_compute; lia |]); split.
  all: try (intros n Hn [Hok Hbefore];
            destruct (three_cases n Hn) as [-> | [-> | ->]];
            try congruence;
            try (exfalso; apply (Hbefore 0%nat); [lia | assumption]);
            try (exfalso; apply (Hbefore 1%nat); [lia | assumption]);
            by repeat split).
  all: intros Hall.
  - exists m2. by repeat split.
  - exfalso. apply (Hall 2%nat); [lia | assumption].
  - exfalso. apply (Hall 1%nat); [lia | assumption].
  - exfalso. apply (Hall 0%nat); [lia | assumption].
Qed.

Lemma connectDB_second_call_witness :
  exists result trace,
    Startup2.connectDB (fun n => if (n =? 0)%nat then Some "timeout" else None) 3
    = Some (result, trace)
    /\ result = inr tt /\ connects trace = 2%nat /\ waits trace = [5000].
Proof.
  destruct (connectDB_retries_at_most_three_times
              (fun n => if (n =? 0)%nat then Some "timeout" else None) 3)
    as (result & trace & Heq & _ & Hfirst & _); [reflexivity |].
  exists result, trace. split; [exact Heq |].
  apply (Hfirst 1%nat); [lia |]. split; [reflexivity |].
  intros k Hk. assert (k = 0%nat) as -> by lia. discriminate.
Defined.



(** ** The HTTPS redirection of unnamed/part_000 *)

(** In production a POST to the router of unnamed/part_000 that is not
    marked as HTTPS by [x-forwarded-proto] is redirected to the same host
    and URL under https, and nothing is stored or saved whatever it
    carries; otherwise the request reaches the upload and the handler; and
    the request that follows the redirection passes. *)
Theorem https_redirection_comes_first `{Host} env h url fields part w :
  (NODE_ENV env = Some "production" -> Https.x_forwarded_proto h <> Some "https" ->
   Https.submit env h url fields part w
   = (Https.Redirected ("https://" +:+ toString (Https.host h) +:+ url), w))
  /\ (NODE_ENV env <> Some "production" \/ Https.x_forwarded_proto h = Some "https" ->
      Https.submit env h url fields part w
      = (Https.Routed (fst (Routes2.submit env fields part w)),
         snd (Routes2.submit env fields part w)))
  /\ Https.forceHttps env
       {| Https.x_forwarded_proto := Some "https"; Https.host := Https.host h |} url
     = Https.Pass.
Proof.
  unfold Https.submit, Https.forceHttps. split; [| split].
  - intros Hprod Hproto.
    rewrite (bool_decide_eq_false_2 _ Hproto), (bool_decide_eq_true_2 _ Hprod).
    reflexivity.
  - intros [Hdev | Hproto].
    + rewrite (bool_decide_eq_false_2 _ Hdev), andb_false_r.
      by destruct (Routes2.submit env fields part w).
    + rewrite (bool_decide_eq_true_2 _ Hproto). simpl.
      by destruct (Routes2.submit env fields part w).
  - reflexivity.
Qed.

Lemma https_redirection_witness :
  Https.submit Sample.env
    {| Https.x_forwarded_proto := Some "http"; Https.host := Some "api.example.com" |}
    "/" Sample.fields (Some Sample.jpg) Sample.empty
  = (Https.Redirected "https://api.example.com/", Sample.empty)
  /\ exists o,
       fst (Https.submit Sample.env
              {| Https.x_forwarded_proto := Some "https";
                 Https.host := Some "api.example.com" |}
              "/" Sample.fields (Some Sample.jpg) Sample.empty)
       = Https.Routed (Sent 201 (Created o)).
Proof.
  pose proof (https_redirection_comes_first Sample.env
                {| Https.x_forwarded_proto := Some "http";
                   Https.host := Some "api.example.com" |}
                "/" Sample.fields (Some Sample.jpg) Sample.empty) as (H1 & _ & _).
  pose proof (https_redirection_comes_first Sample.env
                {| Https.x_forwarded_proto := Some "https";
                   Https.host := Some "api.example.com" |}
                "/" Sample.fields (Some Sample.jpg) Sample.empty) as (_ & H2 & _).
  split; [apply H1; [reflexivity | discriminate] |].
  rewrite H2; [| by right]. eexists. vm_compute. reflexivity.
Defined.

(** ** Answers and the collection *)

Lemma unchanged_answer (w : World) (o : Outcome) (w' : World) :
  code_of o <> Some 201 -> orders w' = orders w ->
  answer_matches_collection w (o, w').
Proof. intros Hc Ho. right. by split. Qed.

Lemma server1_catch_matches `{Host} env req error w :
  answer_matches_collection w (Server1.catch env req error w).
Proof.
  unfold Server1.catch. destruct (file req); [destruct (unlink_fault env) |];
    by apply unchanged_answer.
Qed.

Lemma server2_catch_matches `{Host} env req error w :
  answer_matches_collection w (Server2.catch env req error w).
Proof.
  unfold Server2.catch. apply unchanged_answer; [done |].
  destruct (file req); [by destruct (unlink_fault env) | done].
Qed.

Lemma server1_post_matches `{Host} env req w :
  answer_matches_collection w (Server1.post_orders env req w).
Proof.
  unfold Server1.post_orders, Server1.try_post.
  destruct (file req) as [f|] eqn:Hf; [| by apply unchanged_answer].
  destruct (Server1.incomplete (body req)); [by apply unchanged_answer |].
  destruct (parse (body req !! "products")) as [e | parsed]; simpl;
    [apply server1_catch_matches |].
  destruct (Mongoose.save _ _ _ _ _) as [e | [saved w']] eqn:Hs; simpl;
    [apply server1_catch_matches |].
  apply save_adds in Hs as (_ & Ho & _). left. by exists saved.
Qed.

Lemma server2_post_matches `{Host} env req w :
  answer_matches_collection w (Server2.post_orders env req w).
Proof.
  unfold Server2.post_orders, Server2.try_post.
  destruct (file req) as [f|] eqn:Hf; [| by apply unchanged_answer].
  destruct (0 <? length (Server2.missingFields (body req)))%nat;
    [by apply unchanged_answer |].
  destruct (parse (body req !! "products")) as [e | parsed]; simpl;
    [by apply unchanged_answer |].
  destruct (Mongoose.save _ _ _ _ _) as [e | [saved w']] eqn:Hs; simpl;
    [apply server2_catch_matches |].
  apply save_adds in Hs as (_ & Ho & _). left. by exists saved.
Qed.

Lemma router_post_matches `{Host} env req w :
  answer_matches_collection w (Routes.post env req w).
Proof.
  unfold Routes.post, Routes.try_post, Routes.catch.
  destruct (Routes.cart_empty (body req)) as [e | [|]]; simpl;
    [by apply unchanged_answer | by apply unchanged_answer |].
  destruct (file req) as [f|]; [| by apply unchanged_answer].
  destruct (negb _ || negb _); [by apply unchanged_answer |].
  destruct (parse (body req !! "products")) as [e | parsed]; simpl;
    [by apply unchanged_answer |].
  destruct (Mongoose.save _ _ _ _ _) as [e | [saved w']] eqn:Hs; simpl;
    [by apply unchanged_answer |].
  apply save_adds in Hs as (_ & Ho & _). left. by exists saved.
Qed.

Lemma router2_post_matches `{Host} env req w :
  answer_matches_collection w (Routes2.post env req w).
Proof.
  unfold Routes2.post, Routes2.try_post, Routes.catch.
  destruct (negb (truthy (body req !! "products"))); [by apply unchanged_answer |].
  destruct (parse (body req !! "products")) as [e | parsed]; simpl;
    [by apply unchanged_answer |].
  destruct (Routes2.no_lines parsed); [by apply unchanged_answer |].
  destruct (file req) as [f|]; [| by apply unchanged_answer].
  destruct (negb _ || negb _); [by apply unchanged_answer |].
  destruct (Mongoose.save _ _ _ _ _) as [e | [saved w']] eqn:Hs; simpl;
    [by apply unchanged_answer |].
  apply save_adds in Hs as (_ & Ho & _). left. by exists saved.
Qed.

Lemma matches_after (w0 w : World) (r : Outcome * World) :
  orders w = orders w0 ->
  answer_matches_collection w r -> answer_matches_collection w0 r.
Proof.
  unfold answer_matches_collection, persisted. by intros ->.
Qed.

Lemma server1_submit_matches `{Host} env fields part w :
  answer_matches_collection w (Server1.submit env fields part w).
Proof.
  unfold Server1.submit.
  pose proof (single_orders Server1.upload "paymentScreenshot" env part w) as Hs.
  destruct (Multer.single _ _ _ _ _) as [[err | f] w1]; simpl in Hs.
  - by apply unchanged_answer.
  - apply matches_after with w1; [exact Hs | apply server1_post_matches].
Qed.

Lemma server2_submit_matches `{Host} env fields part w :
  answer_matches_collection w (Server2.submit env fields part w).
Proof.
  unfold Server2.submit.
  pose proof (single_orders Server2.upload "paymentScreenshot" env part w) as Hs.
  destruct (Multer.single _ _ _ _ _) as [[err | f] w1]; simpl in Hs.
  - unfold Server2.error_handler. destruct err; by apply unchanged_answer.
  - apply matches_after with w1; [exact Hs | apply server2_post_matches].
Qed.

Lemma router_submit_matches `{Host} env fields part w :
  answer_matches_collection w (Routes.submit env fields part w).
Proof.
  unfold Routes.submit.
  pose proof (single_orders Routes.upload "paymentScreenshot" env part w) as Hs.
  destruct (Multer.single _ _ _ _ _) as [[err | f] w1]; simpl in Hs.
  - by apply unchanged_answer.
  - apply matches_after with w1; [exact Hs | apply router_post_matches].
Qed.

Lemma router2_submit_matches `{Host} env fields part w :
  answer_matches_collection w (Routes2.submit env fields part w).
Proof.
  unfold Routes2.submit.
  pose proof (single_orders Routes2.upload "paymentScreenshot" env part w) as Hs.
  destruct (Multer.single _ _ _ _ _) as [[err | f] w1]; simpl in Hs.
  - by apply unchanged_answer.
  - apply matches_after with w1; [exact Hs | apply router2_post_matches].
Qed.

(** With every program, a submission is answered 201 exactly when it adds
    an order to the collection, and the order in the answer is the one
    added, at the end of the collection; with any other outcome the
    collection is as it was. *)
Theorem submission_saves_exactly_on_201 `{Host} env fields part w :
  answer_matches_collection w (Server1.submit env fields part w)
  /\ answer_matches_collection w (Server2.submit env fields part w)
  /\ answer_matches_collection w (Routes.submit env fields part w)
  /\ answer_matches_collection w (Routes2.submit env fields part w).
Proof.
  split; [apply server1_submit_matches |].
  split; [apply server2_submit_matches |].
  split; [apply router_submit_matches | apply router2_submit_matches].
Qed.

(** ** Files *)

(** The handlers of server.js remove at most the file of the request, and
    only on the way through their [catch] block, which answers 500 (or, at
    lines 130-134, ends with the error of the delete, the file kept); the
    handlers of the router never remove a file, so a stored upload stays
    whatever the answer. *)
Theorem handlers_remove_only_their_upload `{Host} env req w :
  (files (snd (Server2.post_orders env req w)) = files w
   \/ exists f, file req = Some f
                /\ code_of (fst (Server2.post_orders env req w)) = Some 500
                /\ files (snd (Server2.post_orders env req w)) = files w ∖ {[path f]})
  /\ (files (snd (Server1.post_orders env req w)) = files w
      \/ exists f, file req = Some f
                   /\ code_of (fst (Server1.post_orders env req w)) = Some 500
                   /\ files (snd (Server1.post_orders env req w)) = files w ∖ {[path f]})
  /\ files (snd (Routes.post env req w)) = files w
  /\ files (snd (Routes2.post env req w)) = files w.
Proof.
  split; [| split; [| split]].
  - unfold Server2.post_orders, Server2.try_post, Server2.catch.
    destruct (file req) as [f|] eqn:Hf; [| by left].
    destruct (0 <? length (Server2.missingFields (body req)))%nat; [by left |].
    destruct (parse (body req !! "products")) as [e | parsed]; simpl; [by left |].
    destruct (Mongoose.save _ _ _ _ _) as [e | [saved w']] eqn:Hs; simpl.
    + destruct (unlink_fault env); [by left | right; by exists f].
    + apply save_adds in Hs as (_ & _ & Hfiles). by left.
  - unfold Server1.post_orders, Server1.try_post, Server1.catch.
    destruct (file req) as [f|] eqn:Hf; [| by left].
    destruct (Server1.incomplete (body req)); [by left |].
    destruct (parse (body req !! "products")) as [e | parsed]; simpl.
    { destruct (unlink_fault env); [by left | right; by exists f]. }
    destruct (Mongoose.save _ _ _ _ _) as [e | [saved w']] eqn:Hs; simpl.
    + destruct (unlink_fault env); [by left | right; by exists f].
    + apply save_adds in Hs as (_ & _ & Hfiles). by left.
  - unfold Routes.post, Routes.try_post, Routes.catch.
    destruct (Routes.cart_empty (body req)) as [e | [|]]; simpl; try done.
    destruct (file req) as [f|]; [| done].
    destruct (negb _ || negb _); [done |].
    destruct (parse (body req !! "products")) as [e | parsed]; simpl; [done |].
    destruct (Mongoose.save _ _ _ _ _) as [e | [saved w']] eqn:Hs; simpl; [done |].
    by apply save_adds in Hs as (_ & _ & Hfiles).
  - unfold Routes2.post, Routes2.try_post, Routes.catch.
    destruct (negb (truthy (body req !! "products"))); [done |].
    destruct (parse (body req !! "products")) as [e | parsed]; simpl; [done |].
    destruct (Routes2.no_lines parsed); [done |].
    destruct (file req) as [f|]; [| done].
    destruct (negb _ || negb _); [done |].
    destruct (Mongoose.save _ _ _ _ _) as [e | [saved w']] eqn:Hs; simpl; [done |].
    by apply save_adds in Hs as (_ & _ & Hfiles).
Qed.

(** ** What server.js, lines 179-454, lets into the collection *)

Lemma required_passes p msg v :
  Mongoose.required p msg v = [] -> exists s, v = Some s /\ String.eqb s "" = false.
Proof.
  unfold Mongoose.required. destruct (truthy v) eqn:E; [| discriminate].
  intros _. by apply truthy_Some.
Qed.

Lemma schema_passes_contact `{Host} (o : Order) :
  Server2.orderSchema o = [] -> valid_contact o.
Proof.
  unfold Server2.orderSchema. intros Hs.
  repeat (apply app_eq_nil in Hs as [? Hs]).
  repeat split.
  - destruct (required_passes _ _ _ H1) as [e [He Hne]]. exists e. split; [exact He |].
    rewrite He in H2. unfold Mongoose.match_ in H2. rewrite Hne in H2.
    by destruct (RegExp.test Server2.email_re e).
  - destruct (required_passes _ _ _ H3) as [p [Hp Hne]].
    rewrite Hp in H4. unfold Mongoose.validate in H4.
    destruct (RegExp.test Server2.phone_re p) eqn:Ht; [| discriminate].
    apply phone_re_ten_digits in Ht as [Hlen Hdig]. by exists p.
  - unfold Mongoose.number_path in H9.
    destruct (totalAmount o) as [n|]; [| discriminate]. exists n.
    split; [reflexivity |].
    destruct (isNaN n); [discriminate |]. by destruct (number_ge n 0).
Qed.

Lemma stamp_contact `{Host} timestamps env o :
  valid_contact o -> valid_contact (Mongoose.stamp timestamps env o).
Proof. by destruct timestamps. Qed.

Lemma server2_post_adds_valid `{Host} env req w :
  orders (snd (Server2.post_orders env req w)) = orders w
  \/ exists o, persisted w (snd (Server2.post_orders env req w)) o /\ valid_contact o.
Proof.
  unfold Server2.post_orders, Server2.try_post.
  destruct (file req) as [f|] eqn:Hf; [| by left].
  destruct (0 <? length (Server2.missingFields (body req)))%nat; [by left |].
  destruct (parse (body req !! "products")) as [e | parsed]; simpl; [by left |].
  destruct (Mongoose.save _ _ _ _ _) as [e | [saved w']] eqn:Hs; simpl.
  { left. apply server2_catch_orders. }
  pose proof Hs as Hsave. apply save_adds in Hs as (-> & Ho & _).
  right. eexists. split; [exact Ho |]. apply stamp_contact, schema_passes_contact.
  unfold Mongoose.save in Hsave. by destruct (Server2.orderSchema _).
Qed.

(** Every order that server.js, lines 179-454, has saved since the
    collection was empty has an email that matches [/.+\@.+\..+/], a phone
    of exactly ten decimal digits and a total that is a number at least 0. *)
Theorem server2_saves_only_valid_contacts `{Host} w :
  reachable server2 w -> Forall valid_contact (orders w).
Proof.
  apply reachable_all. intros [env fields part | env] w0; simpl.
  - unfold Server2.submit.
    pose proof (single_orders Server2.upload "paymentScreenshot" env part w0) as Hs.
    destruct (Multer.single _ _ _ _ _) as [[err | f] w1]; simpl in Hs.
    + left. unfold Server2.error_handler. by destruct err.
    + destruct (server2_post_adds_valid env {| body := fields; file := f |} w1)
        as [Hsame | [o [Hp Hv]]].
      * left. by rewrite Hsame.
      * right. exists o. split; [by apply persisted_after with w1 | done].
  - left. unfold Server2.get_orders. by destruct (Mongoose.find _ _ _).
Qed.

Lemma server2_valid_contacts_witness :
  exists o,
    orders (snd (server2 (POST Sample.env Sample.fields (Some Sample.jpg)) Sample.empty))
    = [o]
    /\ valid_contact o.
Proof.
  assert (Hr : reachable server2
                 (snd (server2 (POST Sample.env Sample.fields (Some Sample.jpg))
                         Sample.empty))).
  { apply reach_call, reach_start. reflexivity. }
  pose proof (server2_saves_only_valid_contacts _ Hr) as Hall.
  eexists. split; [vm_compute; reflexivity |].
  by apply Forall_inv in Hall.
Defined.

(** ** A submission, then the listing *)

Lemma find_sort_desc_latest key (l : list Order) (o : Order) :
  (forall y, In y l -> Mongoose.key_le (key o) (key y) = false) ->
  Mongoose.find_sort_desc key (l ++ [o]) = o :: Mongoose.find_sort_desc key l.
Proof.
  unfold Mongoose.find_sort_desc. rewrite foldr_app. simpl.
  induction l as [|y rest IH]; intros Hlate; simpl; [reflexivity |].
  rewrite IH by (intros z Hz; apply Hlate; by right). simpl.
  rewrite (Hlate y) by by left. reflexivity.
Qed.

Lemma server2_answer_dated `{Host} env fields part w o :
  order_of (fst (Server2.submit env fields part w)) = Some o ->
  orderDate o = Some (Date_now env).
Proof.
  unfold Server2.submit.
  destruct (Multer.single _ _ _ _ _) as [[err | f] w1]; simpl.
  { unfold Server2.error_handler. by destruct err. }
  unfold Server2.post_orders, Server2.try_post, Server2.catch. simpl.
  destruct f as [f|]; [| done].
  destruct (0 <? length (Server2.missingFields fields))%nat; [done |].
  destruct (parse (fields !! "products")) as [e | parsed]; simpl; [done |].
  destruct (Mongoose.save _ _ _ _ _) as [e | [saved w']] eqn:Hs; simpl; [done |].
  apply save_adds in Hs as (-> & _ & _). by intros [= <-].
Qed.

Lemma router_answer_dated `{Host} env fields part w o :
  order_of (fst (Routes.submit env fields part w)) = Some o ->
  orderDate o = Some (Date_now env).
Proof.
  unfold Routes.submit.
  destruct (Multer.single _ _ _ _ _) as [[err | f] w1]; simpl; [done |].
  unfold Routes.post, Routes.try_post, Routes.catch. simpl.
  destruct (Routes.cart_empty fields) as [e | [|]]; simpl; try done.
  destruct f as [f|]; [| done].
  destruct (negb _ || negb _); [done |].
  destruct (parse (fields !! "products")) as [e | parsed]; simpl; [done |].
  destruct (Mongoose.save _ _ _ _ _) as [e | [saved w']] eqn:Hs; simpl; [done |].
  apply save_adds in Hs as (-> & _ & _). by intros [= <-].
Qed.

Lemma answered_order_persisted (w : World) (r : Outcome * World) (o : Order) :
  answer_matches_collection w r -> order_of (fst r) = Some o ->
  code_of (fst r) = Some 201 -> persisted w (snd r) o.
Proof.
  intros [(o' & _ & Ho' & Hp) | [Hc _]] Ho Hcode; [| done].
  rewrite Ho in Ho'. by injection Ho' as ->.
Qed.

(** With server.js, lines 179-454, and with routes/orders.js: when a
    submission is answered 201 at a time later than the date of every order
    in the collection, the next listing, if the store answers, begins with
    the order of that answer, followed by the listing as it was before. *)
Theorem new_order_heads_the_listing `{Host} env env' fields part w :
  (forall y, In y (orders w) ->
     Mongoose.key_le (Some (Date_now env)) (orderDate y) = false) ->
  find_fault env' = None ->
  (forall o, fst (Server2.submit env fields part w) = Sent 201 (Created o) ->
     fst (Server2.get_orders env' (snd (Server2.submit env fields part w)))
     = Sent 200 (Listing (o :: Mongoose.find_sort_desc orderDate (orders w))))
  /\ (forall o, fst (Routes.submit env fields part w) = Sent 201 (Bare o) ->
        fst (Routes.get env' (snd (Routes.submit env fields part w)))
        = Sent 200 (BareList (o :: Mongoose.find_sort_desc orderDate (orders w)))).
Proof.
  intros Hlate Hfind.
  pose proof (server2_submit_matches env fields part w) as H2.
  pose proof (router_submit_matches env fields part w) as H3.
  split; intros o Hans.
  - assert (Hp : persisted w (snd (Server2.submit env fields part w)) o)
      by (apply answered_order_persisted; [exact H2 | by rewrite Hans..]).
    assert (Hd : orderDate o = Some (Date_now env))
      by (apply (server2_answer_dated env fields part w); by rewrite Hans).
    unfold Server2.get_orders, Mongoose.find. rewrite Hfind. simpl.
    rewrite Hp, find_sort_desc_latest; [reflexivity |].
    intros y Hy. rewrite Hd. by apply Hlate.
  - assert (Hp : persisted w (snd (Routes.submit env fields part w)) o)
      by (apply answered_order_persisted; [exact H3 | by rewrite Hans..]).
    assert (Hd : orderDate o = Some (Date_now env))
      by (apply (router_answer_dated env fields part w); by rewrite Hans).
    unfold Routes.get, Mongoose.find. rewrite Hfind. simpl.
    rewrite Hp, find_sort_desc_latest; [reflexivity |].
    intros y Hy. rewrite Hd. by apply Hlate.
Qed.

Lemma new_order_heads_the_listing_witness :
  exists o,
    fst (Server2.submit Sample.env Sample.fields (Some Sample.jpg) Sample.three_orders)
    = Sent 201 (Created o)
    /\ fst (Server2.get_orders Sample.env
              (snd (Server2.submit Sample.env Sample.fields (Some Sample.jpg)
                      Sample.three_orders)))
       = Sent 200 (Listing [o; Sample.order_at 30; Sample.order_at 20;
                            Sample.order_at 10]).
Proof.
  destruct (new_order_heads_the_listing Sample.env Sample.env Sample.fields
              (Some Sample.jpg) Sample.three_orders) as [Hs _].
  - intros y [<- | [<- | [<- | []]]]; reflexivity.
  - reflexivity.
  - eexists. split; [vm_compute; reflexivity |].
    rewrite (Hs _ ltac:(vm_compute; reflexivity)). reflexivity.
Defined.

(** ** What the patterns accept *)

Lemma one_or_more_spec k s cont :
  RegExp.one_or_more k s cont = true
  <-> exists a rest, s = a +:+ rest /\ a <> ""
                     /\ every (RegExp.accepts k) a = true /\ cont rest = true.
Proof.
  induction s as [|c s IH]; simpl.
  - split; [discriminate |]. intros (a & rest & Hs & Ha & _).
    destruct a; [done | discriminate Hs].
  - rewrite andb_true_iff, orb_true_iff, IH. split.
    + intros [Hc [Hk | (a & rest & -> & Ha & He & Hk)]].
      * exists (String c ""), s. simpl. by rewrite Hc.
      * exists (String c a), rest. rewrite append_cons. simpl. by rewrite Hc, He.
    + intros (a & rest & Hs & Ha & He & Hk).
      destruct a as [|d a]; [done |]. rewrite append_cons in Hs.
      injection Hs as <- ->. simpl in He. apply andb_true_iff in He as [Hc He].
      split; [exact Hc |]. destruct a as [|d a]; [by left |].
      right. exists (String d a), rest. by repeat split.
Qed.

Lemma once_spec k s cont :
  RegExp.exactly k 1 s cont = true
  <-> exists c rest, s = String c rest /\ RegExp.accepts k c = true
                     /\ cont rest = true.
Proof.
  destruct s as [|c s]; simpl.
  - split; [discriminate | by intros (? & ? & ? & _)].
  - rewrite andb_true_iff. split.
    + intros [Hc Hk]. by exists c, s.
    + by intros (d & rest & [= -> ->] & Hc & Hk).
Qed.

Lemma search_spec r s :
  RegExp.search r s = true
  <-> exists pre rest, s = pre +:+ rest /\ RegExp.match_here r rest = true.
Proof.
  induction s as [|c s IH]; simpl.
  - rewrite orb_false_r. split.
    + intros Hm. by exists "", "".
    + intros (pre & rest & Hs & Hm). destruct pre; [| discriminate Hs].
      change ("" +:+ rest) with rest in Hs. by subst.
  - rewrite orb_true_iff, IH. split.
    + intros [Hm | (pre & rest & -> & Hm)].
      * by exists "", (String c s).
      * exists (String c pre), rest. by rewrite append_cons.
    + intros (pre & rest & Hs & Hm). destruct pre as [|d pre].
      * left. change ("" +:+ rest) with rest in Hs. by subst.
      * rewrite append_cons in Hs. injection Hs as <- ->. right. by exists pre, rest.
Qed.

Lemma literal_accepts (d c : ascii) : RegExp.accepts (RegExp.Lit d) c = true <-> c = d.
Proof. simpl. apply Ascii.eqb_eq. Qed.

Lemma email_match_here (s : string) :
  RegExp.match_here Server2.email_re s
  = RegExp.one_or_more RegExp.AnyChar s (fun r1 =>
      RegExp.exactly (RegExp.Lit "@") 1 r1 (fun r2 =>
        RegExp.one_or_more RegExp.AnyChar r2 (fun r3 =>
          RegExp.exactly (RegExp.Lit ".") 1 r3 (fun r4 =>
            RegExp.one_or_more RegExp.AnyChar r4 (fun _ => true))))).
Proof. reflexivity. Qed.

Lemma no_lead_byte_no_separator (c1 c2 c3 : ascii) :
  Ascii.eqb c1 "226" = false -> RegExp.is_separator c1 c2 c3 = false.
Proof. intros Hc. unfold RegExp.is_separator. by rewrite Hc. Qed.

(** A text without the byte 226, such as any text of 7-bit characters, has
    no U+2028 and no U+2029. *)
Lemma line_separators_plain (s : string) :
  every (fun c => negb (Ascii.eqb c "226")) s = true ->
  RegExp.line_separators s = s.
Proof.
  induction s as [|c1 tail IH]; [done |]. intros Hd.
  change (negb (Ascii.eqb c1 "226")
          && every (fun c => negb (Ascii.eqb c "226")) tail = true) in Hd.
  apply andb_true_iff in Hd as [Hc Ht]. apply negb_true_iff in Hc.
  specialize (IH Ht).
  destruct tail as [|c2 [|c3 rest]].
  - reflexivity.
  - change (RegExp.line_separators (String c1 (String c2 "")))
      with (String c1 (RegExp.line_separators (String c2 ""))).
    by rewrite IH.
  - change (RegExp.line_separators (String c1 (String c2 (String c3 rest))))
      with (if RegExp.is_separator c1 c2 c3
            then String "010" (RegExp.line_separators rest)
            else String c1 (RegExp.line_separators (String c2 (String c3 rest)))).
    rewrite (no_lead_byte_no_separator c1 c2 c3 Hc). by rewrite IH.
Qed.

(** [/.+\@.+\..+/], the email pattern of server.js, line 275, is not
    anchored: it holds of exactly the texts that, with every U+2028 and
    U+2029 read as the line terminator it is, contain anywhere a non-empty
    run without line terminator, an at sign, another such run, a dot, and
    a third such run; whatever stands before and after is accepted. A text
    without the byte 226 is read as it stands. *)
Theorem email_re_accepts_any_text_around_the_shape (s : string) :
  (RegExp.test Server2.email_re s = true
   <-> exists pre a b c post,
         RegExp.line_separators s
         = pre +:+ a +:+ "@" +:+ b +:+ "." +:+ c +:+ post
         /\ a <> "" /\ b <> "" /\ c <> ""
         /\ one_line a = true /\ one_line b = true /\ one_line c = true)
  /\ (every (fun c => negb (Ascii.eqb c "226")) s = true ->
      RegExp.line_separators s = s).
Proof.
  split; [| apply line_separators_plain].
  change (RegExp.test Server2.email_re s)
    with (RegExp.search Server2.email_re (RegExp.line_separators s)).
  rewrite search_spec. split.
  - intros (pre & rest & -> & Hm). rewrite email_match_here in Hm.
    apply one_or_more_spec in Hm as (a & r1 & -> & Ha & Hla & Hm).
    apply once_spec in Hm as (c1 & r2 & -> & Hc1%literal_accepts & Hm). subst c1.
    apply one_or_more_spec in Hm as (b & r3 & -> & Hb & Hlb & Hm).
    apply once_spec in Hm as (c2 & r4 & -> & Hc2%literal_accepts & Hm). subst c2.
    apply one_or_more_spec in Hm as (c & post & -> & Hc & Hlc & _).
    by exists pre, a, b, c, post.
  - intros (pre & a & b & c & post & -> & Ha & Hb & Hc & Hla & Hlb & Hlc).
    exists pre, (a +:+ "@" +:+ b +:+ "." +:+ c +:+ post). split; [reflexivity |].
    rewrite email_match_here.
    apply one_or_more_spec. exists a, ("@" +:+ b +:+ "." +:+ c +:+ post).
    repeat split; [exact Ha | exact Hla |].
    apply once_spec. exists "@"%char, (b +:+ "." +:+ c +:+ post).
    repeat split.
    apply one_or_more_spec. exists b, ("." +:+ c +:+ post).
    repeat split; [exact Hb | exact Hlb |].
    apply once_spec. exists "."%char, (c +:+ post). repeat split.
    apply one_or_more_spec. exists c, post. by repeat split.
Qed.

(** U+2028 before the at sign is no local part. *)
Example email_re_line_separator :
  RegExp.test Server2.email_re
    (String "226" (String "128" (String "168" "@b.c"))) = false
  /\ RegExp.test Server2.email_re
       (String "226" (String "128" (String "166" "@b.c"))) = true.
Proof. split; reflexivity. Qed.

(** [/^\d{10}$/], the phone pattern of server.js, line 282, holds of exactly
    the strings of ten decimal digits. *)
Theorem phone_re_accepts_exactly_ten_digits (s : string) :
  RegExp.test Server2.phone_re s = true
  <-> String.length s = 10%nat /\ every RegExp.is_digit s = true.
Proof.
  change (RegExp.test Server2.phone_re s)
    with (RegExp.exactly RegExp.Digit 10 (RegExp.line_separators s)
            (fun rest => String.eqb rest "")).
  rewrite exactly_to_end. change (RegExp.accepts RegExp.Digit) with RegExp.is_digit.
  split.
  - intros [Hl Hd]. pose proof (digits_have_no_separator s Hd) as E.
    rewrite E in Hl, Hd. done.
  - intros [Hl Hd]. by rewrite (line_separators_digits s Hd).
Qed.

(** ** Stored names *)

Lemma length_append (s t : string) :
  String.length (s +:+ t) = (String.length s + String.length t)%nat.
Proof. induction s as [|c s IH]; [done |]. rewrite append_cons. simpl. by rewrite IH. Qed.

Lemma append_cancel_r (s1 s2 t : string) : s1 +:+ t = s2 +:+ t -> s1 = s2.
Proof.
  revert s2. induction s1 as [|c s1 IH]; intros [|d s2] Heq; [done | | |].
  - apply (f_equal String.length) in Heq. rewrite !length_append in Heq.
    simpl in Heq. lia.
  - apply (f_equal String.length) in Heq. rewrite !length_append in Heq.
    simpl in Heq. lia.
  - rewrite !append_cons in Heq. injection Heq as -> Heq. f_equal. by apply IH.
Qed.

Lemma pretty_N_char_digit (x : N) : RegExp.is_digit (pretty_N_char x) = true.
Proof. unfold pretty_N_char. by repeat case_match. Qed.

Lemma pretty_N_go_digits (x : N) (s : string) :
  every RegExp.is_digit s = true -> every RegExp.is_digit (pretty_N_go x s) = true.
Proof.
  revert s. induction (N.lt_wf_0 x) as [x _ IH]; intros s Hs.
  assert (x = 0 \/ 0 < x)%N as [-> | Hpos] by lia.
  - by rewrite pretty_N_go_0.
  - rewrite pretty_N_go_step by done. apply IH; [by apply N.div_lt |].
    simpl. by rewrite pretty_N_char_digit, Hs.
Qed.

Lemma pretty_Z_digits (z : Z) : 0 <= z -> every RegExp.is_digit (pretty z) = true.
Proof.
  destruct z as [|p|p]; [done | | lia]. intros _.
  unfold pretty, pretty_Z, pretty, pretty_positive, pretty, pretty_N.
  case_decide; [done |]. by apply pretty_N_go_digits.
Qed.

Lemma digits_then_dash (d1 d2 r1 r2 : string) :
  every RegExp.is_digit d1 = true -> every RegExp.is_digit d2 = true ->
  d1 +:+ "-" +:+ r1 = d2 +:+ "-" +:+ r2 -> d1 = d2 /\ r1 = r2.
Proof.
  revert d2. induction d1 as [|c d1 IH]; intros [|c' d2] H1 H2 Heq.
  - by injection Heq.
  - rewrite append_cons in Heq. injection Heq as <- _.
    simpl in H2. discriminate H2.
  - rewrite append_cons in Heq. injection Heq as -> _.
    simpl in H1. discriminate H1.
  - rewrite !append_cons in Heq. injection Heq as -> Heq.
    simpl in H1, H2. apply andb_true_iff in H1 as [_ H1].
    apply andb_true_iff in H2 as [_ H2].
    destruct (IH d2 H1 H2 Heq) as [-> ->]. done.
Qed.

(** The name a file is stored under, [`${Date.now()}-${random}${extension}`]
    in every program: two uploads with the same original name get the same
    stored name only when both the time and the random number are the same;
    a difference in either gives different names. *)
Theorem uniqueName_collides_only_on_same_time_and_random `{Host} env env' part part' :
  0 <= Date_now env -> 0 <= Date_now env' ->
  0 <= Math_random env -> 0 <= Math_random env' ->
  Multer.part_originalname part = Multer.part_originalname part' ->
  Multer.uniqueName env part = Multer.uniqueName env' part' ->
  Date_now env = Date_now env' /\ Math_random env = Math_random env'.
Proof.
  intros Hn Hn' Hr Hr' Hname. unfold Multer.uniqueName. rewrite Hname. intros Heq.
  apply digits_then_dash in Heq as [Hd Hrest]; [| by apply pretty_Z_digits..].
  apply append_cancel_r in Hrest.
  split; by apply (inj pretty).
Qed.

Lemma uniqueName_witness :
  Date_now Sample.env = Date_now Sample.env_development
  /\ Math_random Sample.env = Math_random Sample.env_development.
Proof.
  apply (uniqueName_collides_only_on_same_time_and_random
           Sample.env Sample.env_development Sample.jpg Sample.large_jpg);
    try (vm_compute; congruence); reflexivity.
Defined.

(** ** Required fields in the two programs of server.js *)

Lemma incomplete_iff_missing (b : gmap string string) :
  Server1.incomplete b = true <-> Server2.missingFields b <> [].
Proof.
  unfold Server1.incomplete, Server2.missingFields. simpl.
  destruct (truthy (b !! "name")), (truthy (b !! "email")),
    (truthy (b !! "phone")), (truthy (b !! "address")),
    (truthy (b !! "pincode")), (truthy (b !! "city")),
    (truthy (b !! "totalAmount")), (truthy (b !! "products")); simpl;
    split; intros; try discriminate; try done.
Qed.



(** ** Products that do not parse, in the two programs of server.js *)

(** For a submission with its file and all required fields whose [products]
    is not JSON: the handler of server.js, lines 108-135, goes through its
    [catch] block, answers 500 "Failed to create order" and, when the delete
    succeeds, removes the stored file; the handler of lines 307-374 answers
    400 "Invalid products format" and changes nothing. *)
Theorem malformed_products_in_server1_and_server2 `{Host} env req w f m :
  file req = Some f ->
  Server1.incomplete (body req) = false ->
  JSON_parse (toString (body req !! "products")) = inl m ->
  unlink_fault env = None ->
  Server1.post_orders env req w
  = (Sent 500 (Failure "Failed to create order" None),
     remove_file (path f) (log ("Order creation error: " +:+ m) w))
  /\ Server2.post_orders env req w
     = (Sent 400 (Failure "Invalid products format" None), w).
Proof.
  intros Hf Hc Hp Hu. split.
  - unfold Server1.post_orders, Server1.try_post, Server1.catch, parse.
    by rewrite Hf, Hc, Hp, Hu.
  - apply server2_bad_json with f m; [exact Hf | | exact Hp].
    destruct (Server2.missingFields (body req)) eqn:E; [done |].
    assert (Hi : Server1.incomplete (body req) = true)
      by (apply incomplete_iff_missing; by rewrite E).
    rewrite Hi in Hc. discriminate Hc.
Qed.

Lemma malformed_products_witness :
  Server1.post_orders Sample.env
    {| body := Sample.malformed_products; file := Some Sample.file_server |}
    (Sample.holding Sample.file_server)
  = (Sent 500 (Failure "Failed to create order" None),
     remove_file (path Sample.file_server)
       (log "Order creation error: Unexpected token in JSON"
          (Sample.holding Sample.file_server)))
  /\ Server2.post_orders Sample.env
       {| body := Sample.malformed_products; file := Some Sample.file_server |}
       (Sample.holding Sample.file_server)
     = (Sent 400 (Failure "Invalid products format" None),
        Sample.holding Sample.file_server).
Proof.
  apply (malformed_products_in_server1_and_server2 Sample.env
           {| body := Sample.malformed_products; file := Some Sample.file_server |}
           (Sample.holding Sample.file_server) Sample.file_server
           "Unexpected token in JSON");
    vm_compute; reflexivity.
Defined.

(** ** Products that are not a list, in the two versions of the router *)





(** ** File types across the programs *)

(** The two programs of server.js accept the same MIME types, and every
    type that either of them accepts is accepted by the upload of the
    router, in both its versions, which accept the same types as each
    other. *)
Theorem server_types_are_router_types (part : Multer.Part) :
  (Server1.fileFilter part = None <-> Server2.fileFilter part = None)
  /\ (Server1.fileFilter part = None ->
      Routes.fileFilter part = None /\ Routes2.fileFilter part = None)
  /\ (Server2.fileFilter part = None ->
      Routes.fileFilter part = None /\ Routes2.fileFilter part = None)
  /\ (Routes.fileFilter part = None <-> Routes2.fileFilter part = None).
Proof.
  unfold Server2.fileFilter, Server1.fileFilter, Routes.fileFilter, Routes2.fileFilter.
  change Server1.allowedTypes with Server2.allowedTypes.
  assert (Hin : includes Server2.allowedTypes (Multer.part_mimetype part) = true ->
                startsWith (Multer.part_mimetype part) "image/" = true).
  { intros E. apply includes_In in E. simpl in E.
    by destruct E as [<- | [<- | [<- | []]]]. }
  destruct (includes Server2.allowedTypes (Multer.part_mimetype part)).
  - by rewrite Hin.
  - split; [done |]. split; [discriminate |]. split; [discriminate |].
    by destruct (startsWith (Multer.part_mimetype part) "image/").
Qed.

Lemma server_types_witness :
  Server1.fileFilter Sample.jpg = None
  /\ Routes.fileFilter Sample.jpg = None
  /\ Routes2.fileFilter Sample.jpg = None.
Proof.
  destruct (server_types_are_router_types Sample.jpg) as (H12 & _ & Hr & _).
  split; [apply H12; reflexivity |]. apply Hr. reflexivity.
Defined.

(** ** Submissions without a file *)

Lemma single_without_part `{Host} o field env w :
  Multer.single o field env None w = (inr None, w).
Proof. reflexivity. Qed.

(** With every program, a submission without a file part is answered 400
    and leaves the storage and the collection as they were, whatever its
    fields are. *)
Theorem submission_without_file_is_refused `{Host} env fields w :
  (code_of (fst (Server1.submit env fields None w)) = Some 400
   /\ files (snd (Server1.submit env fields None w)) = files w
   /\ orders (snd (Server1.submit env fields None w)) = orders w)
  /\ (code_of (fst (Server2.submit env fields None w)) = Some 400
      /\ files (snd (Server2.submit env fields None w)) = files w
      /\ orders (snd (Server2.submit env fields None w)) = orders w)
  /\ (code_of (fst (Routes.submit env fields None w)) = Some 400
      /\ files (snd (Routes.submit env fields None w)) = files w
      /\ orders (snd (Routes.submit env fields None w)) = orders w)
  /\ (code_of (fst (Routes2.submit env fields None w)) = Some 400
      /\ files (snd (Routes2.submit env fields None w)) = files w
      /\ orders (snd (Routes2.submit env fields None w)) = orders w).
Proof.
  unfold Server1.submit, Server2.submit, Routes.submit, Routes2.submit.
  rewrite !single_without_part.
  split; [done |]. split; [done |]. split.
  - unfold Routes.post, Routes.try_post, Routes.catch. simpl.
    by destruct (Routes.cart_empty fields) as [e | [|]].
  - unfold Routes2.post, Routes2.try_post, Routes.catch. simpl.
    destruct (negb (truthy (fields !! "products"))); [done |].
    destruct (parse (fields !! "products")) as [e | parsed]; simpl; [done |].
    by destruct (Routes2.no_lines parsed).
Qed.

(** ** Error texts in the answers of server.js, lines 179-454 *)




(** ** The same submission, twice *)

Lemma schema_ignores_file_and_time `{Host} env env' b f f' parsed :
  Server2.orderSchema (Server2.newOrder env b f parsed)
  = Server2.orderSchema (Server2.newOrder env' b f' parsed).
Proof. reflexivity. Qed.

(** server.js, lines 179-454, does not recognise a submission it has
    already saved: when a submission was answered 201, the same fields and
    file sent again are answered 201 again, unless the store fails, and the
    collection then ends with the two orders. *)
Theorem repeated_submission_is_saved_again `{Host} env env' fields part w o :
  fst (Server2.submit env fields part w) = Sent 201 (Created o) ->
  save_fault env' = None ->
  exists o',
    fst (Server2.submit env' fields part (snd (Server2.submit env fields part w)))
    = Sent 201 (Created o')
    /\ orders (snd (Server2.submit env' fields part
                     (snd (Server2.submit env fields part w))))
       = (orders w ++ [o; o'])%list.
Proof.
  intros Hfirst Hstore. revert Hfirst.
  unfold Server2.submit, Multer.single.
  destruct part as [p|]; [| discriminate].
  change (Multer.fileFilter Server2.upload) with Server2.fileFilter.
  destruct (Server2.fileFilter (Multer.received p)) eqn:Hfilter.
  { unfold Server2.error_handler. by destruct e. }
  destruct (Multer.too_large Server2.upload (Multer.received p)) eqn:Hsize;
    [discriminate |].
  unfold Server2.post_orders, Server2.try_post. simpl.
  destruct (0 <? length (Server2.missingFields fields))%nat; [discriminate |].
  destruct (parse (fields !! "products")) as [e | parsed]; [discriminate |].
  simpl. unfold Mongoose.save.
  rewrite (schema_ignores_file_and_time env' env fields _
             (Multer.stored Server2.upload env (Multer.received p)) parsed).
  destruct (Server2.orderSchema _); [| discriminate].
  destruct (save_fault env); [discriminate |].
  rewrite Hstore. simpl. intros [= <-].
  eexists. split; [reflexivity |]. by rewrite <- app_assoc.
Qed.

Lemma repeated_submission_witness :
  exists o o',
    fst (Server2.submit Sample.env Sample.fields (Some Sample.jpg)
           (snd (Server2.submit Sample.env Sample.fields (Some Sample.jpg) Sample.empty)))
    = Sent 201 (Created o')
    /\ orders (snd (Server2.submit Sample.env Sample.fields (Some Sample.jpg)
                     (snd (Server2.submit Sample.env Sample.fields (Some Sample.jpg)
                             Sample.empty))))
       = [o; o'].
Proof.
  eexists.
  apply (repeated_submission_is_saved_again Sample.env Sample.env Sample.fields
           (Some Sample.jpg) Sample.empty);
    [vm_compute; reflexivity | reflexivity].
Defined.
